(** * Ethiopian / Gregorian calendar engine (ethiopianDateUtils.ts)

    A shallow embedding of the conversion engine of the Ethiopian date
    picker: leap-year predicates, month lengths, the two day-number
    encodings with their decoders, the public conversions, validation,
    date arithmetic and comparison, then the names of months and days,
    the formatting functions and the fluent converter built on them.

    Numbers are the integers the engine is used on, as [Z].  The two
    integer idioms of the source are kept apart:
    - [Math.floor(a / b)] with a positive constant [b] is [a / b]
      ([Z.div] rounds towards minus infinity);
    - [a % b] is [Z.rem a b] (the sign of the result follows [a]). *)

From Stdlib Require Import ZArith Lia Bool List Ascii String DecimalString.
Import ListNotations.
Local Open Scope Z_scope.

(** ** Host platform: the [Date] object

    The engine builds dates with [new Date(year, monthIndex, day)] and
    reads them back with [getFullYear], [getMonth], [getDate] (all three
    in local time, so they return what the constructor was given) and
    with [getUTCDay].  A [Date] is modelled by the calendar day these
    three show; the engine never reads the time of day.  The constructor
    has one rule of its own that the engine does not undo: a year from
    0 to 99 stands for 1900 + year.
    Month and day overflow is not modelled; [gregorianDateFromDayNo]
    only ever passes a month index in 0..11 and a day of that month
    (lemma [gregorianDateFromDayNo_wellformed]). *)
Module Host.

Record Date : Set := mkDate
  { getFullYear : Z;   (* calendar year *)
    getMonth : Z;      (* 0-based month index *)
    getDate : Z }.     (* day of the month *)

Definition new_Date (year monthIndex day : Z) : Date :=
  mkDate (if (0 <=? year) && (year <=? 99) then 1900 + year else year)
         monthIndex day.

(** Day arithmetic of the platform (ECMAScript, "Time Values and
    Time Range"): days since 1 January 1970. *)
Definition DayFromYear (y : Z) : Z :=
  365 * (y - 1970) + (y - 1969) / 4 - (y - 1901) / 100 + (y - 1601) / 400.

Definition InLeapYear (y : Z) : bool :=
  if negb (y mod 4 =? 0) then false
  else if negb (y mod 100 =? 0) then true
  else (y mod 400 =? 0).

Definition DaysBeforeMonth (monthIndex : Z) (leap : bool) : Z :=
  let l := if leap then 1 else 0 in
  match monthIndex with
  | 0 => 0 | 1 => 31 | 2 => 59 + l | 3 => 90 + l | 4 => 120 + l
  | 5 => 151 + l | 6 => 181 + l | 7 => 212 + l | 8 => 243 + l
  | 9 => 273 + l | 10 => 304 + l | _ => 334 + l
  end.

Definition MakeDay (d : Date) : Z :=
  DayFromYear (getFullYear d)
  + DaysBeforeMonth (getMonth d) (InLeapYear (getFullYear d))
  + getDate d - 1.

(** 1 January 1970 was a Thursday; Sunday is 0. *)
Definition WeekDay (day : Z) : Z := (day + 4) mod 7.

(** [getUTCDay] reads the weekday in UTC of the instant the object
    holds, which is local midnight of the calendar day.  On a host
    whose zone is ahead of UTC that instant still belongs to the
    previous UTC day; otherwise it belongs to the same day. *)
Definition getUTCDay (aheadOfUTC : bool) (d : Date) : Z :=
  WeekDay (MakeDay d - (if aheadOfUTC then 1 else 0)).

(** The weekday of the calendar day itself (what [getDay] returns). *)
Definition getDay (d : Date) : Z := WeekDay (MakeDay d).

End Host.
Export Host.

(** Outcome of a call that may [throw new Error(message)]. *)
Inductive outcome (A : Type) : Type :=
| Returns (value : A)
| Throws (message : string).
Arguments Returns {A} value.
Arguments Throws {A} message.

(** Rendering of an integer inside a template literal. *)
Definition show (n : Z) : string := NilZero.string_of_int (Z.to_int n).

(** ** The engine *)

Definition ETHIOPIAN_CALENDAR_OFFSET : Z := 2431.
Definition ETHIOPIAN_DAYS_IN_MONTH : Z := 30.
Definition ETHIOPIAN_LEAP_YEAR_DAYS : Z := 6.
Definition ETHIOPIAN_NORMAL_YEAR_DAYS : Z := 5.

(** [interface EtDate] and [class EthiopianDate]: the same three fields;
    the class constructor takes them in the order Day, Month, Year. *)
Record EthiopianDate : Set := new_EthiopianDate
  { Day : Z; Month : Z; Year : Z }.
Abbreviation EtDate := EthiopianDate.

Definition isEthiopianLeapYear (year : Z) : bool :=
  Z.rem year 4 =? 3.

Definition getEthiopianMonthLength (month year : Z) : Z :=
  if month =? 13 then
    if isEthiopianLeapYear year
    then ETHIOPIAN_LEAP_YEAR_DAYS
    else ETHIOPIAN_NORMAL_YEAR_DAYS
  else ETHIOPIAN_DAYS_IN_MONTH.

Definition isLeapYearGr (year : Z) : bool :=
  (Z.rem year 4 =? 0)
  && (negb (Z.rem year 100 =? 0) || (Z.rem year 400 =? 0)).

Definition getDayNumber (ethiopianDate : EtDate) : Z :=
  let leapYearCycles := Year ethiopianDate / 4 in
  let remainingYears := Z.rem (Year ethiopianDate) 4 in
  leapYearCycles * 1461
  + remainingYears * 365
  + (Month ethiopianDate - 1) * ETHIOPIAN_DAYS_IN_MONTH
  + Day ethiopianDate
  - 1.

Definition getGregorianMonthLength (index year : Z) : Z :=
  match index with
  | 1 | 3 | 5 | 7 | 8 | 10 | 12 => 31
  | 2 => if isLeapYearGr year then 29 else 28
  | _ => 30
  end.

(** The [while (true)] loop that walks the months of [year].  Every
    round that does not stop takes at least 28 days off [dayNumber];
    [fuel] bounds the number of rounds. *)
Fixpoint monthLoop (fuel : nat) (month year dayNumber : Z) : option (Z * Z) :=
  match fuel with
  | O => None
  | S fuel' =>
      let daysInCurrentMonth := getGregorianMonthLength month year in
      if dayNumber <=? daysInCurrentMonth
      then Some (month, dayNumber)
      else monthLoop fuel' (month + 1) year (dayNumber - daysInCurrentMonth)
  end.

(** [None] stands for a loop that is still running when the fuel is
    spent; [gregorianDateFromDayNo_returns] shows it never happens. *)
Definition gregorianDateFromDayNo (dayNumber : Z) : option Date :=
  let fourHundredYearPeriods := dayNumber / 146097 in
  let dayNumber := Z.rem dayNumber 146097 in
  if dayNumber =? 0 then
    Some (new_Date (400 * fourHundredYearPeriods) (12 - 1) 31)
  else
  let hundredYearPeriods := Z.min (dayNumber / 36524) 3 in
  let dayNumber := dayNumber - hundredYearPeriods * 36524 in
  if dayNumber =? 0 then
    Some (new_Date (400 * fourHundredYearPeriods + 100 * hundredYearPeriods)
                   (12 - 1) 31)
  else
  let fourYearPeriods := dayNumber / 1461 in
  let dayNumber := Z.rem dayNumber 1461 in
  if dayNumber =? 0 then
    Some (new_Date (400 * fourHundredYearPeriods + 100 * hundredYearPeriods
                    + 4 * fourYearPeriods)
                   (12 - 1) 31)
  else
  let singleYears := Z.min (dayNumber / 365) 3 in
  let dayNumber := dayNumber - singleYears * 365 in
  if dayNumber =? 0 then
    Some (new_Date (400 * fourHundredYearPeriods + 100 * hundredYearPeriods
                    + 4 * fourYearPeriods + singleYears)
                   (12 - 1) 31)
  else
  let year := 1 + (400 * fourHundredYearPeriods + 100 * hundredYearPeriods
                   + 4 * fourYearPeriods + singleYears) in
  match monthLoop (S (Z.to_nat dayNumber)) 1 year dayNumber with
  | Some (month, day) => Some (new_Date year (month - 1) day)
  | None => None
  end.

Definition createEthiopianDate (dayNumber : Z) : EthiopianDate :=
  let leapYearCycles := dayNumber / 1461 in
  let remainingDays := Z.rem dayNumber 1461 in
  let yearsInCycle := remainingDays / 365 in
  let daysInYear := Z.rem remainingDays 365 in
  if negb (remainingDays =? 1460) then
    new_EthiopianDate (Z.rem daysInYear 30 + 1)
                      (daysInYear / 30 + 1)
                      (leapYearCycles * 4 + yearsInCycle)
  else
    new_EthiopianDate 6 13 (leapYearCycles * 4 + yearsInCycle - 1).

(** [for (currentMonth = 1; currentMonth < month; currentMonth++)]. *)
Definition addGregorianMonths (month year : Z) : Z :=
  fold_left
    (fun totalDays currentMonth =>
       totalDays + getGregorianMonthLength currentMonth year)
    (map Z.of_nat (seq 1 (Z.to_nat (month - 1))))
    0.

(** The argument is typed [Date]; the [instanceof] guard of the source
    cannot fire on it. *)
Definition getGregorianDayNumber (gregorianDate : Date) : Z :=
  let previousYears := getFullYear gregorianDate - 1 in
  let leapYears :=
    previousYears / 4 - previousYears / 100 + previousYears / 400 in
  let nonLeapYears := previousYears - leapYears in
  let daysInPreviousYears := leapYears * 366 + nonLeapYears * 365 in
  let daysInCurrentYear :=
    addGregorianMonths (getMonth gregorianDate + 1) (getFullYear gregorianDate)
    + getDate gregorianDate in
  daysInPreviousYears + daysInCurrentYear.

Definition toEthiopian (gregorianDate : Date) : EthiopianDate :=
  createEthiopianDate
    (getGregorianDayNumber gregorianDate - ETHIOPIAN_CALENDAR_OFFSET).

Definition toGregorian (ethiopianDate : EtDate) : option Date :=
  gregorianDateFromDayNo
    (getDayNumber ethiopianDate + ETHIOPIAN_CALENDAR_OFFSET).

(** [((gregorianDate.getUTCDay() || 7) % 7) + 1]: [x || 7] is 7 when
    [x] is 0 and [x] otherwise. *)
Definition getMonthStartDay (aheadOfUTC : bool) (month year : Z) : option Z :=
  match toGregorian (new_EthiopianDate 1 month year) with
  | Some gregorianDate =>
      let utcDay := getUTCDay aheadOfUTC gregorianDate in
      Some (Z.rem (if utcDay =? 0 then 7 else utcDay) 7 + 1)
  | None => None
  end.

Definition isValidEthiopianDate (ethiopianDate : EtDate) : bool :=
  if (Year ethiopianDate <? 1000) || (Year ethiopianDate >? 3000) then false
  else if (Month ethiopianDate <? 1) || (Month ethiopianDate >? 13) then false
  else if Day ethiopianDate <? 1 then false
  else if Day ethiopianDate
          >? getEthiopianMonthLength (Month ethiopianDate) (Year ethiopianDate)
  then false
  else true.

Definition invalidEthiopianDate (ethiopianDate : EtDate) : string :=
  ("Invalid Ethiopian date " ++ show (Day ethiopianDate) ++ "-"
   ++ show (Month ethiopianDate) ++ "-" ++ show (Year ethiopianDate))%string.

Definition addYearsToEthiopianDate
    (ethiopianDate : EtDate) (yearsToAdd : Z) : outcome EthiopianDate :=
  if negb (isValidEthiopianDate ethiopianDate) then
    Throws (invalidEthiopianDate ethiopianDate)
  else
    let newYear := Year ethiopianDate + yearsToAdd in
    let unchanged :=
      Returns (new_EthiopianDate (Day ethiopianDate) (Month ethiopianDate)
                                 newYear) in
    if (Month ethiopianDate =? 13) && (Day ethiopianDate =? 6) then
      if negb (isEthiopianLeapYear newYear)
      then Returns (new_EthiopianDate 5 (Month ethiopianDate) newYear)
      else unchanged
    else unchanged.

Definition addDaysToEthiopianDate
    (ethiopianDate : EtDate) (daysToAdd : Z) : outcome EthiopianDate :=
  if negb (isValidEthiopianDate ethiopianDate) then
    Throws (invalidEthiopianDate ethiopianDate)
  else
    Returns (createEthiopianDate (getDayNumber ethiopianDate + 1 + daysToAdd)).

Definition compareEthiopianDates (firstDate secondDate : EtDate) : Z :=
  if Year firstDate <? Year secondDate then -1
  else if Year firstDate >? Year secondDate then 1
  else if Month firstDate <? Month secondDate then -1
  else if Month firstDate >? Month secondDate then 1
  else if Day firstDate <? Day secondDate then -1
  else if Day firstDate >? Day secondDate then 1
  else 0.

(** ** Names, formatting and the fluent converter *)

(** [type DateType = "EN" | "AMH"]. *)
Inductive DateType : Set := EN | AMH.

Definition ETHIOPIAN_MONTHS : list string :=
  [ "መስከረም"; "ጥቅምት"; "ህዳር"; "ታህሳስ"; "ጥር"; "የካቲት"; "መጋቢት"; "ሚያዚያ";
    "ግንቦት"; "ሰኔ"; "ሐምሌ"; "ነሀሴ"; "ጳጉሜ" ]%string.

Definition ETHIOPIAN_DAYS : list string :=
  [ "ሰኞ"; "ማክሰኞ"; "ረቡዕ"; "ሐሙስ"; "ዓርብ"; "ቅዳሜ"; "እሁድ" ]%string.

Definition ENGLISH_MONTHS : list string :=
  [ "January"; "February"; "March"; "April"; "May"; "June"; "July";
    "August"; "September"; "October"; "November"; "December" ]%string.

Definition ENGLISH_DAYS : list string :=
  [ "Monday"; "Tuesday"; "Wednesday"; "Thursday"; "Friday"; "Saturday";
    "Sunday" ]%string.

(** [array[index]]: [None] stands for [undefined], which is what an
    index outside the array gives. *)
Definition at_index {A : Type} (array : list A) (index : Z) : option A :=
  if index <? 0 then None else nth_error array (Z.to_nat index).

(** A string or [undefined] put into a template literal or passed where
    a string is converted to. *)
Definition interpolate (value : option string) : string :=
  match value with Some s => s | None => "undefined"%string end.

(** [String(n).padStart(2, "0")]. *)
Definition padStart2 (s : string) : string :=
  match String.length s with
  | O => "00"%string
  | S O => String "0"%char s
  | _ => s
  end.

(** [s.replace(searchValue, replaceValue)] with two strings: the first
    occurrence of [searchValue] is replaced.  None of the replacement
    strings of the engine holds a dollar sign, so no replacement pattern
    is involved. *)
Fixpoint drop (n : nat) (s : string) : string :=
  match n, s with
  | O, _ => s
  | S n', String _ s' => drop n' s'
  | S _, EmptyString => EmptyString
  end.

Fixpoint replace (searchValue replaceValue s : string) : string :=
  if String.prefix searchValue s
  then (replaceValue ++ drop (String.length searchValue) s)%string
  else match s with
       | EmptyString => EmptyString
       | String c s' => String c (replace searchValue replaceValue s')
       end.

(** [EthiopianDate.toString] and [EthiopianDate.toShortString]. *)
Definition EthiopianDate_toString (this : EthiopianDate) : string :=
  (show (Day this) ++ " "
   ++ interpolate (at_index ETHIOPIAN_MONTHS (Month this - 1)) ++ " "
   ++ show (Year this))%string.

Definition EthiopianDate_toShortString (this : EthiopianDate) : string :=
  (show (Day this) ++ "/" ++ show (Month this) ++ "/"
   ++ show (Year this))%string.

(** The result is a string, or [undefined] ([None]) were a table read
    outside its bounds. *)
Definition getEthiopianMonthName (monthNumber : Z) (locale : DateType)
  : option string :=
  if (monthNumber >? 0) && (monthNumber <=? 13) then
    match locale with
    | AMH => at_index ETHIOPIAN_MONTHS (monthNumber - 1)
    | EN =>
        if monthNumber =? 13 then Some "September"%string
        else
          let r := Z.rem (monthNumber + 8) 12 in
          let gregorianMonthNumber := if r =? 0 then 12 else r in
          at_index ENGLISH_MONTHS (gregorianMonthNumber - 1)
    end
  else Some ""%string.

Definition getEthiopianDayName (dayNumber : Z) (locale : DateType)
  : option string :=
  if (dayNumber >=? 1) && (dayNumber <=? 7) then
    match locale with
    | AMH => at_index ETHIOPIAN_DAYS (dayNumber - 1)
    | EN => at_index ENGLISH_DAYS (dayNumber - 1)
    end
  else Some ""%string.

(** [format: "long" | "short" | "month" | "day"]. *)
Inductive DisplayFormat : Set :=
| FormatLong | FormatShort | FormatMonth | FormatDay.

(** [None] for the date is a [null] argument, which [!gregorianDate]
    catches. *)
Definition formatEthiopianDate
    (gregorianDate : option Date) (format : DisplayFormat) (locale : DateType)
  : string :=
  match gregorianDate with
  | None => ""%string
  | Some gregorianDate =>
      let ethiopianDate := toEthiopian gregorianDate in
      let amharicMonth :=
        interpolate (at_index ETHIOPIAN_MONTHS (Month ethiopianDate - 1)) in
      let englishMonth :=
        interpolate (getEthiopianMonthName (Month ethiopianDate) EN) in
      match format with
      | FormatShort => EthiopianDate_toShortString ethiopianDate
      | FormatMonth =>
          match locale with
          | AMH => amharicMonth ++ " " ++ show (Year ethiopianDate)
          | EN => englishMonth ++ " " ++ show (Year ethiopianDate)
          end
      | FormatDay =>
          match locale with
          | AMH => show (Day ethiopianDate) ++ " " ++ amharicMonth
          | EN => show (Day ethiopianDate) ++ " " ++ englishMonth
          end
      | FormatLong =>
          match locale with
          | AMH => EthiopianDate_toString ethiopianDate
          | EN => show (Day ethiopianDate) ++ " " ++ englishMonth ++ " "
                  ++ show (Year ethiopianDate)
          end
      end%string
  end.

Definition createEthiopianDateFromParts
    (dayNumber monthNumber yearNumber : Z) : EthiopianDate :=
  new_EthiopianDate dayNumber monthNumber yearNumber.

(** [class EthiopianDateConverter]: its private field, and its
    constructor on a [Date] and on three numbers (year, month, day).
    The constructor on a string and the one that reads the clock are
    not modelled. *)
Record EthiopianDateConverter : Set := mkEthiopianDateConverter
  { ethiopianDate : EthiopianDate }.

Definition new_EthiopianDateConverter_ofDate (date : Date)
  : EthiopianDateConverter :=
  mkEthiopianDateConverter (toEthiopian date).

Definition new_EthiopianDateConverter_ofParts (date month day : Z)
  : EthiopianDateConverter :=
  mkEthiopianDateConverter (new_EthiopianDate day month date).

Definition EthiopianDateConverter_toString (this : EthiopianDateConverter)
  : string :=
  (show (Year (ethiopianDate this)) ++ "-"
   ++ padStart2 (show (Month (ethiopianDate this))) ++ "-"
   ++ padStart2 (show (Day (ethiopianDate this))))%string.

(** The table [gregorianMonthMap] that [format] and [toDateString] each
    declare. *)
Definition gregorianMonthMap : list Z :=
  [8; 9; 10; 11; 0; 1; 2; 3; 4; 5; 6; 7; 8].

(** [ENGLISH_MONTHS[gregorianMonthMap[Month - 1]]]; an [undefined] index
    reads [undefined]. *)
Definition englishMonthOf (month : Z) : option string :=
  match at_index gregorianMonthMap (month - 1) with
  | Some gregorianMonthIndex => at_index ENGLISH_MONTHS gregorianMonthIndex
  | None => None
  end.

Definition EthiopianDateConverter_format
    (aheadOfUTC : bool) (this : EthiopianDateConverter)
    (pattern : string) (locale : DateType) : option string :=
  let date := ethiopianDate this in
  let monthNames : list (option string) :=
    match locale with
    | EN => [englishMonthOf (Month date)]
    | AMH => map Some ETHIOPIAN_MONTHS
    end in
  let eraText := match locale with EN => "E.C." | AMH => "ዓ.ም" end%string in
  match getMonthStartDay aheadOfUTC (Month date) (Year date) with
  | None => None
  | Some startDay =>
      Some
        (replace "d" (interpolate (getEthiopianDayName startDay locale))
        (replace "E" eraText
        (replace "D" (show (Day date))
        (replace "DD" (padStart2 (show (Day date)))
        (replace "MM" (padStart2 (show (Month date)))
        (replace "MMM"
           (interpolate (match at_index monthNames 0 with
                         | Some name => name
                         | None => None
                         end))
        (replace "YYYY" (show (Year date)) pattern)))))))
  end.

Definition EthiopianDateConverter_toDateString
    (this : EthiopianDateConverter) (locale : DateType) : string :=
  let date := ethiopianDate this in
  let monthName :=
    match locale with
    | EN => englishMonthOf (Month date)
    | AMH => at_index ETHIOPIAN_MONTHS (Month date - 1)
    end in
  (interpolate monthName ++ " " ++ show (Day date) ++ ", "
   ++ show (Year date))%string.

Definition EthiopianDateConverter_addYears
    (this : EthiopianDateConverter) (years : Z)
  : outcome EthiopianDateConverter :=
  match addYearsToEthiopianDate (ethiopianDate this) years with
  | Throws message => Throws message
  | Returns newEtDate =>
      Returns (new_EthiopianDateConverter_ofParts
                 (Year newEtDate) (Month newEtDate) (Day newEtDate))
  end.

Definition EthiopianDateConverter_addDays
    (this : EthiopianDateConverter) (days : Z)
  : outcome EthiopianDateConverter :=
  match addDaysToEthiopianDate (ethiopianDate this) days with
  | Throws message => Throws message
  | Returns newEtDate =>
      Returns (new_EthiopianDateConverter_ofParts
                 (Year newEtDate) (Month newEtDate) (Day newEtDate))
  end.

(** [dateConverter.toGregorian] on a converter and on three numbers
    (year, month, day); its branch on a string is not modelled. *)
Definition dateConverter_toGregorian_ofConverter
    (ethiopianDate' : EthiopianDateConverter) : option Date :=
  toGregorian (ethiopianDate ethiopianDate').

Definition dateConverter_toGregorian_ofParts (ethiopianDate' month day : Z)
  : outcome (option Date) :=
  if negb (isValidEthiopianDate
             (new_EthiopianDate day month ethiopianDate')) then
    Throws ("Invalid Ethiopian date: " ++ show day ++ "-" ++ show month
            ++ "-" ++ show ethiopianDate')%string
  else
    Returns (toGregorian (new_EthiopianDate day month ethiopianDate')).

Definition dateConverter_fromParts (year month day : Z)
  : EthiopianDateConverter :=
  new_EthiopianDateConverter_ofParts year month day.

(** ** Vocabulary of the properties *)

(** A date of the Ethiopian calendar, with no bound on the year other
    than being non-negative. *)
Definition wellFormedEt (e : EtDate) : Prop :=
  0 <= Year e /\ 1 <= Month e <= 13 /\
  1 <= Day e <= getEthiopianMonthLength (Month e) (Year e).

(** A [Date] that holds a day of the Gregorian calendar. *)
Definition isGregorianCalendarDay (g : Date) : Prop :=
  0 <= getMonth g <= 11 /\
  1 <= getDate g
    <= getGregorianMonthLength (getMonth g + 1) (getFullYear g).

(** The call ended in a [throw]. *)
Definition throws {A : Type} (o : outcome A) : Prop :=
  match o with Throws _ => True | Returns _ => False end.

(** [t] occurs in [s]. *)
Definition includes (s t : string) : Prop :=
  exists before after : string, s = (before ++ t ++ after)%string.

(** The lexicographic order on triples of integers, and the number that
    stands for a comparison. *)
Definition lexicographic (a b : Z * Z * Z) : comparison :=
  let '(a1, a2, a3) := a in
  let '(b1, b2, b3) := b in
  match a1 ?= b1 with
  | Eq => match a2 ?= b2 with Eq => a3 ?= b3 | c => c end
  | c => c
  end.

Definition signOf (c : comparison) : Z :=
  match c with Lt => -1 | Eq => 0 | Gt => 1 end.

Definition ymd (e : EtDate) : Z * Z * Z := (Year e, Month e, Day e).

(** The weekday numbering Monday = 1, ..., Sunday = 7 of a weekday
    given with Sunday = 0, ..., Saturday = 6. *)
Definition mondayFirst (weekday : Z) : Z :=
  if weekday =? 0 then 7 else weekday.

(** The day after a date of the calendar. *)
Definition nextDay (e : EtDate) : EthiopianDate :=
  if Day e <? getEthiopianMonthLength (Month e) (Year e)
  then new_EthiopianDate (Day e + 1) (Month e) (Year e)
  else if Month e <? 13
       then new_EthiopianDate 1 (Month e + 1) (Year e)
       else new_EthiopianDate 1 1 (Year e + 1).

(** [first.then(...)] of two calls chained with a dot: an error thrown
    by the first call skips the second. *)
Definition andThen {A B : Type} (first : outcome A) (next : A -> outcome B)
  : outcome B :=
  match first with
  | Returns value => next value
  | Throws message => Throws message
  end.

(** The character [c] occurs in [s]. *)
Fixpoint hasChar (c : ascii) (s : string) : bool :=
  match s with
  | EmptyString => false
  | String a s' => Ascii.eqb c a || hasChar c s'
  end.

(** The whole numbers from [first] on, [count] of them. *)
Definition wholeNumbers (first : Z) (count : nat) : list Z :=
  map (fun k => first + Z.of_nat k) (seq 0 count).

(** Reading a decimal numeral back. *)
Definition readDecimal (s : string) : option Z :=
  option_map Z.of_int (NilZero.int_of_string s).

(** Days in the Gregorian years 1 .. y - 1. *)
Definition daysBeforeYear (y : Z) : Z :=
  365 * (y - 1) + ((y - 1) / 4 - (y - 1) / 100 + (y - 1) / 400).

Definition yearLength (y : Z) : Z := if isLeapYearGr y then 366 else 365.

(** The day number of day [d] of month [m] (1-based) of year [y]. *)
Definition dayNumberOf (y m d : Z) : Z :=
  daysBeforeYear y + addGregorianMonths m y + d.

(** Month lengths and the month loop as functions of the leap flag of
    the year, which is all they read of it. *)
Definition monthLengthOf (index : Z) (leap : bool) : Z :=
  match index with
  | 1 | 3 | 5 | 7 | 8 | 10 | 12 => 31
  | 2 => if leap then 29 else 28
  | _ => 30
  end.

Fixpoint monthLoopOf (fuel : nat) (month : Z) (leap : bool) (dayNumber : Z)
  : option (Z * Z) :=
  match fuel with
  | O => None
  | S fuel' =>
      if dayNumber <=? monthLengthOf month leap
      then Some (month, dayNumber)
      else monthLoopOf fuel' (month + 1) leap
             (dayNumber - monthLengthOf month leap)
  end.

(** Evaluates the month tables at the constants they are applied to. *)
Ltac eval_tables :=
  repeat match goal with
         | |- context [DaysBeforeMonth ?m ?l] =>
             let v := eval vm_compute in (DaysBeforeMonth m l) in
             change (DaysBeforeMonth m l) with v
         | |- context [monthLengthOf ?m ?l] =>
             let v := eval vm_compute in (monthLengthOf m l) in
             change (monthLengthOf m l) with v
         | H : context [DaysBeforeMonth ?m ?l] |- _ =>
             let v := eval vm_compute in (DaysBeforeMonth m l) in
             change (DaysBeforeMonth m l) with v in H
         | H : context [monthLengthOf ?m ?l] |- _ =>
             let v := eval vm_compute in (monthLengthOf m l) in
             change (monthLengthOf m l) with v in H
         end;
  cbv iota.

(** ** Ethiopian side: encoding and decoding of day numbers *)

Section EthiopianDayNumbers.

Lemma isEthiopianLeapYear_nonneg (y : Z) :
  0 <= y -> isEthiopianLeapYear y = (y mod 4 =? 3).
Proof.
  intros Hy. unfold isEthiopianLeapYear.
  now rewrite Z.rem_mod_nonneg by lia.
Qed.

Lemma getEthiopianMonthLength_cases (m y : Z) :
  (m = 13 /\ isEthiopianLeapYear y = true
          /\ getEthiopianMonthLength m y = 6) \/
  (m = 13 /\ isEthiopianLeapYear y = false
          /\ getEthiopianMonthLength m y = 5) \/
  (m <> 13 /\ getEthiopianMonthLength m y = 30).
Proof.
  unfold getEthiopianMonthLength.
  destruct (Z.eqb_spec m 13) as [-> | Hm].
  - destruct (isEthiopianLeapYear y); [left | right; left]; auto.
  - right; right; auto.
Qed.

(** Day of the year, counted from 0, of a well-formed date. *)
Lemma dayOfYear_bounds (e : EtDate) :
  wellFormedEt e ->
  let d := (Month e - 1) * 30 + Day e - 1 in
  0 <= d <= 365 /\
  (d = 365 -> Year e mod 4 = 3 /\ Month e = 13 /\ Day e = 6) /\
  d / 30 = Month e - 1 /\ d mod 30 = Day e - 1.
Proof.
  intros (Hy & Hm & Hd) d. subst d.
  assert (Hday : 0 <= Day e - 1 < 30 /\
                 (Month e = 13 -> Day e <= 6 /\
                                  (Day e = 6 -> Year e mod 4 = 3))).
  { destruct (getEthiopianMonthLength_cases (Month e) (Year e))
      as [(M & L & E) | [(M & L & E) | (M & E)]];
      rewrite E in Hd; try rewrite isEthiopianLeapYear_nonneg in L by lia;
      try destruct (Z.eqb_spec (Year e mod 4) 3); try discriminate; lia. }
  destruct Hday as (H30 & H13).
  split; [lia | split; [ | split]].
  - intros E. assert (Month e = 13) as M by lia.
    destruct (H13 M) as (H6 & HY). rewrite M in E.
    assert (Day e = 6) as D6 by lia. auto.
  - symmetry; apply Z.div_unique with (r := Day e - 1); lia.
  - symmetry; apply Z.mod_unique with (q := Month e - 1); lia.
Qed.

Lemma createEthiopianDate_getDayNumber (e : EtDate) :
  wellFormedEt e -> createEthiopianDate (getDayNumber e) = e.
Proof.
  intros W. pose proof (dayOfYear_bounds e W) as (Hd & H365 & Hq & Hr).
  destruct W as (Hy & Hm & HD). destruct e as [D M Y]; simpl in *.
  unfold getDayNumber, createEthiopianDate, ETHIOPIAN_DAYS_IN_MONTH; simpl.
  rewrite (Z.rem_mod_nonneg Y 4) by lia.
  set (d := (M - 1) * 30 + D - 1) in *.
  assert (Hc : 0 <= Y / 4) by (apply Z.div_pos; lia).
  pose proof (Z.mod_pos_bound Y 4 ltac:(lia)) as Hr4.
  pose proof (Z.div_mod Y 4 ltac:(lia)) as HY.
  set (c := Y / 4) in *. set (r := Y mod 4) in *.
  replace (c * 1461 + r * 365 + (M - 1) * 30 + D - 1)
    with (c * 1461 + (r * 365 + d)) by (subst d; lia).
  assert (Hrem : 0 <= r * 365 + d < 1461).
  { destruct (Z.eq_dec d 365) as [E | E]; [apply H365 in E | ]; lia. }
  rewrite Z.rem_mod_nonneg by lia.
  assert (Hq1 : (c * 1461 + (r * 365 + d)) / 1461 = c).
  { symmetry; apply Z.div_unique with (r := r * 365 + d); lia. }
  assert (Hr1 : (c * 1461 + (r * 365 + d)) mod 1461 = r * 365 + d).
  { symmetry; apply Z.mod_unique with (q := c); lia. }
  rewrite Hq1, Hr1.
  destruct (Z.eqb_spec (r * 365 + d) 1460) as [E | E]; simpl.
  - assert (d = 365 /\ r = 3) as (Ed & Er) by lia.
    destruct (H365 Ed) as (_ & -> & ->).
    replace ((r * 365 + d) / 365) with 4
      by (apply Z.div_unique with (r := 0); lia).
    f_equal; lia.
  - assert (Hd' : 0 <= d < 365).
    { destruct (Z.eq_dec d 365) as [E' | E']; [apply H365 in E' | ]; lia. }
    rewrite (Z.rem_mod_nonneg (r * 365 + d) 365) by lia.
    replace ((r * 365 + d) / 365) with r
      by (apply Z.div_unique with (r := d); lia).
    replace ((r * 365 + d) mod 365) with d
      by (apply Z.mod_unique with (q := r); lia).
    rewrite Z.rem_mod_nonneg by lia.
    rewrite Hq, Hr. f_equal; lia.
Qed.

Lemma getDayNumber_createEthiopianDate (n : Z) :
  0 <= n -> getDayNumber (createEthiopianDate n) = n.
Proof.
  intros Hn. unfold createEthiopianDate, getDayNumber,
    ETHIOPIAN_DAYS_IN_MONTH.
  rewrite (Z.rem_mod_nonneg n 1461) by lia.
  pose proof (Z.div_mod n 1461 ltac:(lia)) as Hdm.
  pose proof (Z.mod_pos_bound n 1461 ltac:(lia)) as Hb.
  assert (Hc : 0 <= n / 1461) by (apply Z.div_pos; lia).
  set (c := n / 1461) in *. set (r := n mod 1461) in *.
  pose proof (Z.div_mod r 365 ltac:(lia)) as Hdm'.
  pose proof (Z.mod_pos_bound r 365 ltac:(lia)) as Hb'.
  assert (Hy : 0 <= r / 365 <= 4).
  { split; [apply Z.div_pos; lia | ].
    apply Z.div_le_upper_bound; lia. }
  rewrite (Z.rem_mod_nonneg r 365) by lia.
  set (y := r / 365) in *. set (d := r mod 365) in *.
  destruct (Z.eqb_spec r 1460) as [E | E]; simpl.
  - assert (y = 4) by lia.
    replace ((c * 4 + y - 1) / 4) with c
      by (apply Z.div_unique with (r := 3); lia).
    rewrite Z.rem_mod_nonneg by lia.
    replace ((c * 4 + y - 1) mod 4) with 3
      by (apply Z.mod_unique with (q := c); lia).
    lia.
  - assert (Hy' : 0 <= y <= 3) by lia.
    replace ((c * 4 + y) / 4) with c
      by (apply Z.div_unique with (r := y); lia).
    rewrite Z.rem_mod_nonneg by lia.
    replace ((c * 4 + y) mod 4) with y
      by (apply Z.mod_unique with (q := c); lia).
    rewrite Z.rem_mod_nonneg by lia.
    pose proof (Z.div_mod d 30 ltac:(lia)). lia.
Qed.

Lemma isValidEthiopianDate_spec (e : EtDate) :
  isValidEthiopianDate e = true <->
  1000 <= Year e <= 3000 /\ 1 <= Month e <= 13 /\
  1 <= Day e <= getEthiopianMonthLength (Month e) (Year e).
Proof.
  unfold isValidEthiopianDate.
  destruct (Z.ltb_spec (Year e) 1000), (Z.gtb_spec (Year e) 3000),
    (Z.ltb_spec (Month e) 1), (Z.gtb_spec (Month e) 13),
    (Z.ltb_spec (Day e) 1),
    (Z.gtb_spec (Day e) (getEthiopianMonthLength (Month e) (Year e)));
    simpl; split; intros; try discriminate; try lia; reflexivity.
Qed.

Lemma isValidEthiopianDate_wellFormed (e : EtDate) :
  isValidEthiopianDate e = true -> wellFormedEt e.
Proof.
  intros H. apply isValidEthiopianDate_spec in H. unfold wellFormedEt. lia.
Qed.

End EthiopianDayNumbers.

(** ** Claims on the Ethiopian side *)

(** C10.  On the Ethiopian side the day-number encoding and decoding are
    exact inverses: for every date with Year >= 1, Month in 1..13 and
    Day in 1..getEthiopianMonthLength(Month, Year), the sixth epagomenal
    day of a leap year included, createEthiopianDate(getDayNumber(e))
    is e. *)
Theorem createEthiopianDate_inverts_getDayNumber (e : EtDate) :
  1 <= Year e ->
  1 <= Month e <= 13 ->
  1 <= Day e <= getEthiopianMonthLength (Month e) (Year e) ->
  createEthiopianDate (getDayNumber e) = e.
Proof.
  intros Hy Hm Hd. apply createEthiopianDate_getDayNumber.
  unfold wellFormedEt. lia.
Qed.

Lemma createEthiopianDate_inverts_getDayNumber_witness :
  let e := new_EthiopianDate 6 13 2019 in
  (1 <= Year e /\ 1 <= Month e <= 13 /\
   1 <= Day e <= getEthiopianMonthLength (Month e) (Year e)) /\
  createEthiopianDate (getDayNumber e) = e.
Proof.
  cbv zeta. split.
  - vm_compute. intuition discriminate.
  - apply (createEthiopianDate_inverts_getDayNumber
             (new_EthiopianDate 6 13 2019)); vm_compute;
      intuition discriminate.
Defined.

(** C3, as the code has it.  Converting the Gregorian date
    July 17, 2025 with toEthiopian yields {Day: 10, Month: 11,
    Year: 2017}. *)
Theorem toEthiopian_2025_07_17 :
  toEthiopian (new_Date 2025 (7 - 1) 17) = new_EthiopianDate 10 11 2017.
Proof. vm_compute. reflexivity. Qed.

(** C3, as stated, fails: the day is 10 and not 11. *)
Lemma toEthiopian_2025_07_17_is_not_day_11 :
  toEthiopian (new_Date 2025 (7 - 1) 17) <> new_EthiopianDate 11 11 2017.
Proof. vm_compute. discriminate. Qed.

Lemma addYearsToEthiopianDate_returns (e : EtDate) (n : Z) :
  isValidEthiopianDate e = true ->
  addYearsToEthiopianDate e n =
    Returns
      (if (Month e =? 13) && (Day e =? 6)
          && negb (isEthiopianLeapYear (Year e + n))
       then new_EthiopianDate 5 13 (Year e + n)
       else new_EthiopianDate (Day e) (Month e) (Year e + n)).
Proof.
  intros V. unfold addYearsToEthiopianDate. rewrite V. simpl.
  destruct (Z.eqb_spec (Month e) 13) as [-> | ]; simpl; [ | reflexivity].
  destruct (Day e =? 6); simpl; [ | reflexivity].
  destruct (isEthiopianLeapYear (Year e + n)); reflexivity.
Qed.

(** C6.  For a valid date e and an integer n, addYearsToEthiopianDate
    returns {Day: e.Day, Month: e.Month, Year: e.Year + n}, except when
    e.Month = 13, e.Day = 6 and e.Year + n is not an Ethiopian leap
    year: then it returns {Day: 5, Month: 13, Year: e.Year + n}. *)
Theorem addYearsToEthiopianDate_result (e : EtDate) (n : Z) :
  isValidEthiopianDate e = true ->
  addYearsToEthiopianDate e n =
    Returns
      (if (Month e =? 13) && (Day e =? 6)
          && negb (isEthiopianLeapYear (Year e + n))
       then new_EthiopianDate 5 13 (Year e + n)
       else new_EthiopianDate (Day e) (Month e) (Year e + n)).
Proof. exact (addYearsToEthiopianDate_returns e n). Qed.

Lemma addYearsToEthiopianDate_result_witness :
  isValidEthiopianDate (new_EthiopianDate 6 13 2019) = true /\
  addYearsToEthiopianDate (new_EthiopianDate 6 13 2019) 1 =
    Returns (new_EthiopianDate 5 13 2020).
Proof.
  split; [reflexivity | ].
  exact (addYearsToEthiopianDate_result (new_EthiopianDate 6 13 2019) 1
           eq_refl).
Defined.

(** C7, as the code has it.  For a valid date e and an integer n the
    result of addYearsToEthiopianDate has its Month in 1..13 and its Day
    in 1..getEthiopianMonthLength(Month, Year); it satisfies
    isValidEthiopianDate exactly when e.Year + n lies in 1000..3000. *)
Theorem addYearsToEthiopianDate_valid_within_year_range
    (e : EtDate) (n : Z) :
  isValidEthiopianDate e = true ->
  exists r : EthiopianDate,
    addYearsToEthiopianDate e n = Returns r /\
    Year r = Year e + n /\
    1 <= Month r <= 13 /\
    1 <= Day r <= getEthiopianMonthLength (Month r) (Year r) /\
    isValidEthiopianDate r = (1000 <=? Year e + n) && (Year e + n <=? 3000).
Proof.
  intros V. rewrite (addYearsToEthiopianDate_returns e n V).
  eexists; split; [reflexivity | ].
  apply isValidEthiopianDate_spec in V. destruct V as (Vy & Vm & Vd).
  match goal with |- Year ?x = _ /\ _ => set (r := x) end.
  assert (R : Year r = Year e + n /\ 1 <= Month r <= 13 /\
              1 <= Day r <= getEthiopianMonthLength (Month r) (Year r)).
  { subst r.
    destruct (Z.eqb_spec (Month e) 13) as [M | M];
      destruct (Z.eqb_spec (Day e) 6) as [D | D];
      destruct (isEthiopianLeapYear (Year e + n)) eqn:L; simpl;
      unfold getEthiopianMonthLength in *; simpl;
      try rewrite L;
      repeat match goal with
             | H : context [if ?b then _ else _] |- _ => destruct b eqn:?
             | |- context [if ?b then _ else _] => destruct b eqn:?
             end;
      unfold ETHIOPIAN_LEAP_YEAR_DAYS, ETHIOPIAN_NORMAL_YEAR_DAYS,
        ETHIOPIAN_DAYS_IN_MONTH in *; try lia. }
  destruct R as (Ry & Rm & Rd). repeat (split; [assumption | ]).
  rewrite <- Ry. unfold isValidEthiopianDate.
  destruct (Z.ltb_spec (Year r) 1000), (Z.gtb_spec (Year r) 3000),
    (Z.leb_spec 1000 (Year r)), (Z.leb_spec (Year r) 3000),
    (Z.ltb_spec (Month r) 1), (Z.gtb_spec (Month r) 13),
    (Z.ltb_spec (Day r) 1),
    (Z.gtb_spec (Day r) (getEthiopianMonthLength (Month r) (Year r)));
    simpl; try reflexivity; lia.
Qed.

Lemma addYearsToEthiopianDate_valid_within_year_range_witness :
  isValidEthiopianDate (new_EthiopianDate 6 13 2019) = true /\
  exists r : EthiopianDate,
    addYearsToEthiopianDate (new_EthiopianDate 6 13 2019) 1 = Returns r /\
    Year r = 2019 + 1 /\
    1 <= Month r <= 13 /\
    1 <= Day r <= getEthiopianMonthLength (Month r) (Year r) /\
    isValidEthiopianDate r = (1000 <=? 2019 + 1) && (2019 + 1 <=? 3000).
Proof.
  split; [reflexivity | ].
  exact (addYearsToEthiopianDate_valid_within_year_range
           (new_EthiopianDate 6 13 2019) 1 eq_refl).
Defined.

(** C7, as stated, fails: one year after the valid date 1/1/3000 is the
    date 1/1/3001, which isValidEthiopianDate rejects. *)
Lemma addYearsToEthiopianDate_leaves_the_valid_years :
  isValidEthiopianDate (new_EthiopianDate 1 1 3000) = true /\
  addYearsToEthiopianDate (new_EthiopianDate 1 1 3000) 1 =
    Returns (new_EthiopianDate 1 1 3001) /\
  isValidEthiopianDate (new_EthiopianDate 1 1 3001) = false.
Proof. vm_compute. auto. Qed.

(** C2, on the code.  Adding zero days to the valid date 11/7/2018
    returns 12/7/2018, the day after: the day number passed to
    createEthiopianDate is getDayNumber(e) + 1 + 0. *)
Theorem addDaysToEthiopianDate_zero_at_2018_07_11 :
  isValidEthiopianDate (new_EthiopianDate 11 7 2018) = true /\
  addDaysToEthiopianDate (new_EthiopianDate 11 7 2018) 0 =
    Returns (new_EthiopianDate 12 7 2018) /\
  addDaysToEthiopianDate (new_EthiopianDate 11 7 2018) (-15) =
    Returns (new_EthiopianDate 27 6 2018).
Proof. vm_compute. auto. Qed.

(** ** Ordering *)

Lemma getDayNumber_year_start (e : EtDate) :
  wellFormedEt e ->
  let start := Year e / 4 * 1461 + Year e mod 4 * 365 in
  start <= getDayNumber e /\
  getDayNumber e
    < start + (if Year e mod 4 =? 3 then 366 else 365).
Proof.
  intros W. pose proof (dayOfYear_bounds e W) as (Hd & H365 & _).
  destruct W as (Hy & _). cbv zeta in *.
  unfold getDayNumber, ETHIOPIAN_DAYS_IN_MONTH.
  rewrite Z.rem_mod_nonneg by lia.
  destruct (Z.eqb_spec (Year e mod 4) 3) as [E | E].
  - lia.
  - destruct (Z.eq_dec ((Month e - 1) * 30 + Day e - 1) 365) as [E' | E'].
    + apply H365 in E'. tauto.
    + lia.
Qed.

Lemma getDayNumber_nonneg (e : EtDate) :
  wellFormedEt e -> 0 <= getDayNumber e.
Proof.
  intros W. pose proof (getDayNumber_year_start e W) as (H & _).
  destruct W as (Hy & _). cbv zeta in H.
  pose proof (Z.mod_pos_bound (Year e) 4 ltac:(lia)).
  assert (0 <= Year e / 4) by (apply Z.div_pos; lia). lia.
Qed.

(** Zero days added never gives a valid date back: it gives the day
    after, and minus one gives the date itself. *)
Lemma addDaysToEthiopianDate_zero_never_identity (e : EtDate) :
  isValidEthiopianDate e = true ->
  addDaysToEthiopianDate e 0 <> Returns e /\
  addDaysToEthiopianDate e (-1) = Returns e.
Proof.
  intros V. pose proof (isValidEthiopianDate_wellFormed e V) as W.
  pose proof (getDayNumber_nonneg e W) as Hn.
  unfold addDaysToEthiopianDate. rewrite V. simpl. split.
  - intros E. injection E as E.
    apply (f_equal getDayNumber) in E.
    rewrite getDayNumber_createEthiopianDate in E by lia. lia.
  - f_equal. replace (getDayNumber e + 1 + -1) with (getDayNumber e) by lia.
    now apply createEthiopianDate_getDayNumber.
Qed.

Lemma getDayNumber_lt_of_year_lt (a b : EtDate) :
  wellFormedEt a -> wellFormedEt b ->
  Year a < Year b -> getDayNumber a < getDayNumber b.
Proof.
  intros Wa Wb Hlt.
  pose proof (getDayNumber_year_start a Wa) as (_ & Ha).
  pose proof (getDayNumber_year_start b Wb) as (Hb & _).
  destruct Wa as (Hya & _), Wb as (Hyb & _).
  cbv zeta in *.
  enough (Year a / 4 * 1461 + Year a mod 4 * 365
          + (if Year a mod 4 =? 3 then 366 else 365)
          <= Year b / 4 * 1461 + Year b mod 4 * 365) by lia.
  pose proof (Z.div_mod (Year a) 4 ltac:(lia)).
  pose proof (Z.div_mod (Year b) 4 ltac:(lia)).
  pose proof (Z.mod_pos_bound (Year a) 4 ltac:(lia)).
  pose proof (Z.mod_pos_bound (Year b) 4 ltac:(lia)).
  destruct (Z.eqb_spec (Year a mod 4) 3); lia.
Qed.

Lemma getDayNumber_lt_same_year (a b : EtDate) :
  wellFormedEt a -> wellFormedEt b ->
  Year a = Year b ->
  Month a < Month b \/ (Month a = Month b /\ Day a < Day b) ->
  getDayNumber a < getDayNumber b.
Proof.
  intros Wa Wb Hy Hlt.
  assert (Da : 1 <= Day a <= 30).
  { destruct Wa as (_ & _ & Hd).
    destruct (getEthiopianMonthLength_cases (Month a) (Year a))
      as [(_ & _ & E) | [(_ & _ & E) | (_ & E)]]; rewrite E in Hd; lia. }
  destruct Wb as (_ & _ & Db).
  unfold getDayNumber, ETHIOPIAN_DAYS_IN_MONTH. rewrite Hy. lia.
Qed.

Lemma compareEthiopianDates_cases (a b : EtDate) :
  (compareEthiopianDates a b = -1 /\
   (Year a < Year b \/
    (Year a = Year b /\
     (Month a < Month b \/ (Month a = Month b /\ Day a < Day b))))) \/
  (compareEthiopianDates a b = 0 /\
   Year a = Year b /\ Month a = Month b /\ Day a = Day b) \/
  (compareEthiopianDates a b = 1 /\
   (Year b < Year a \/
    (Year b = Year a /\
     (Month b < Month a \/ (Month b = Month a /\ Day b < Day a))))).
Proof.
  unfold compareEthiopianDates.
  destruct (Z.ltb_spec (Year a) (Year b)); [left; split; [reflexivity | lia] | ].
  destruct (Z.gtb_spec (Year a) (Year b));
    [right; right; split; [reflexivity | lia] | ].
  destruct (Z.ltb_spec (Month a) (Month b));
    [left; split; [reflexivity | lia] | ].
  destruct (Z.gtb_spec (Month a) (Month b));
    [right; right; split; [reflexivity | lia] | ].
  destruct (Z.ltb_spec (Day a) (Day b)); [left; split; [reflexivity | lia] | ].
  destruct (Z.gtb_spec (Day a) (Day b));
    [right; right; split; [reflexivity | lia] | ].
  right; left; split; [reflexivity | lia].
Qed.

Lemma EthiopianDate_ext (a b : EtDate) :
  Year a = Year b -> Month a = Month b -> Day a = Day b -> a = b.
Proof. destruct a, b; simpl; intros; subst; reflexivity. Qed.

Lemma compareEthiopianDates_lexicographic (a b : EtDate) :
  compareEthiopianDates a b = signOf (lexicographic (ymd a) (ymd b)).
Proof.
  unfold compareEthiopianDates, lexicographic, ymd, Z.ltb, Z.gtb.
  destruct (Year a ?= Year b); simpl; try reflexivity.
  destruct (Month a ?= Month b); simpl; try reflexivity.
  destruct (Day a ?= Day b); reflexivity.
Qed.

Lemma compareEthiopianDates_day_numbers (a b : EtDate) :
  wellFormedEt a -> wellFormedEt b ->
  (compareEthiopianDates a b < 0 <-> getDayNumber a < getDayNumber b) /\
  (compareEthiopianDates a b = 0 <-> getDayNumber a = getDayNumber b).
Proof.
  intros Wa Wb.
  destruct (compareEthiopianDates_cases a b)
    as [(E & H) | [(E & H) | (E & H)]]; rewrite E.
  - assert (getDayNumber a < getDayNumber b).
    { destruct H as [H | (Hy & H)].
      - now apply getDayNumber_lt_of_year_lt.
      - now apply getDayNumber_lt_same_year. }
    lia.
  - destruct H as (Hy & Hm & Hd).
    rewrite (EthiopianDate_ext a b Hy Hm Hd). lia.
  - assert (getDayNumber b < getDayNumber a).
    { destruct H as [H | (Hy & H)].
      - now apply getDayNumber_lt_of_year_lt.
      - now apply getDayNumber_lt_same_year. }
    lia.
Qed.

(** C8.  compareEthiopianDates is the lexicographic order on
    (Year, Month, Day); it returns only -1, 0 or 1; "compare(a,b) < 0"
    is a strict total order (irreflexive, transitive, and any two
    distinct dates are ordered one way or the other, compare being 0
    exactly on equal dates and antisymmetric); and on valid dates it
    agrees with the order of the day numbers. *)
Theorem compareEthiopianDates_strict_total_order (a b c : EtDate) :
  compareEthiopianDates a b = signOf (lexicographic (ymd a) (ymd b)) /\
  (compareEthiopianDates a b = -1 \/ compareEthiopianDates a b = 0 \/
   compareEthiopianDates a b = 1) /\
  ~ compareEthiopianDates a a < 0 /\
  (compareEthiopianDates a b < 0 -> compareEthiopianDates b c < 0 ->
   compareEthiopianDates a c < 0) /\
  (compareEthiopianDates a b < 0 \/ a = b \/ compareEthiopianDates b a < 0) /\
  (compareEthiopianDates a b = 0 <-> a = b) /\
  compareEthiopianDates b a = - compareEthiopianDates a b /\
  (isValidEthiopianDate a = true -> isValidEthiopianDate b = true ->
   (compareEthiopianDates a b < 0 <-> getDayNumber a < getDayNumber b) /\
   (compareEthiopianDates a b = 0 <-> getDayNumber a = getDayNumber b)).
Proof.
  split; [apply compareEthiopianDates_lexicographic | ].
  pose proof (compareEthiopianDates_cases a b) as Hab.
  pose proof (compareEthiopianDates_cases b a) as Hba.
  pose proof (compareEthiopianDates_cases b c) as Hbc.
  pose proof (compareEthiopianDates_cases a c) as Hac.
  pose proof (compareEthiopianDates_cases a a) as Haa.
  repeat split.
  - lia.
  - lia.
  - intros H1 H2. lia.
  - destruct Hab as [(E & _) | [(_ & Hy & Hm & Hd) | (E & H)]];
      [lia | right; left; now apply EthiopianDate_ext | ].
    right; right. lia.
  - intros E. destruct Hab as [(E' & _) | [(_ & Hy & Hm & Hd) | (E' & _)]];
      [lia | now apply EthiopianDate_ext | lia].
  - intros ->. lia.
  - lia.
  - apply compareEthiopianDates_day_numbers;
      now apply isValidEthiopianDate_wellFormed.
  - apply compareEthiopianDates_day_numbers;
      now apply isValidEthiopianDate_wellFormed.
  - apply compareEthiopianDates_day_numbers;
      now apply isValidEthiopianDate_wellFormed.
  - apply compareEthiopianDates_day_numbers;
      now apply isValidEthiopianDate_wellFormed.
Qed.

Lemma compareEthiopianDates_strict_total_order_witness :
  let a := new_EthiopianDate 6 13 2019 in
  let b := new_EthiopianDate 1 1 2020 in
  (isValidEthiopianDate a = true /\ isValidEthiopianDate b = true) /\
  (compareEthiopianDates a b < 0 <-> getDayNumber a < getDayNumber b) /\
  (compareEthiopianDates a b = 0 <-> getDayNumber a = getDayNumber b).
Proof.
  cbv zeta. split; [split; reflexivity | ].
  exact (proj2 (proj2 (proj2 (proj2 (proj2 (proj2 (proj2
           (compareEthiopianDates_strict_total_order
              (new_EthiopianDate 6 13 2019) (new_EthiopianDate 1 1 2020)
              (new_EthiopianDate 1 1 2020)))))))) eq_refl eq_refl).
Defined.

(** ** Errors *)

Lemma append_assoc (s t u : string) :
  ((s ++ t) ++ u = s ++ t ++ u)%string.
Proof. induction s as [ | c s IH]; simpl; [reflexivity | now rewrite IH]. Qed.

Lemma append_empty_r (s : string) : (s ++ "" = s)%string.
Proof. induction s as [ | c s IH]; simpl; [reflexivity | now rewrite IH]. Qed.

Lemma invalidEthiopianDate_includes (e : EtDate) :
  includes (invalidEthiopianDate e) (show (Day e)) /\
  includes (invalidEthiopianDate e) (show (Month e)) /\
  includes (invalidEthiopianDate e) (show (Year e)).
Proof.
  unfold includes, invalidEthiopianDate. repeat split.
  - exists "Invalid Ethiopian date "%string,
      ("-" ++ show (Month e) ++ "-" ++ show (Year e))%string.
    reflexivity.
  - exists ("Invalid Ethiopian date " ++ show (Day e) ++ "-")%string,
      ("-" ++ show (Year e))%string.
    now rewrite !append_assoc.
  - exists ("Invalid Ethiopian date " ++ show (Day e) ++ "-"
            ++ show (Month e) ++ "-")%string, ""%string.
    now rewrite !append_assoc, append_empty_r.
Qed.

(** C9.  addDaysToEthiopianDate and addYearsToEthiopianDate throw
    exactly when their date argument fails isValidEthiopianDate (as
    {Day: 31, Month: 1, Year: 2016} does); the message of the error
    includes the Day, the Month and the Year of the argument; on a valid
    argument they return. *)
Theorem add_throws_iff_invalid (e : EtDate) (n : Z) :
  (throws (addDaysToEthiopianDate e n) <-> isValidEthiopianDate e = false) /\
  (throws (addYearsToEthiopianDate e n) <-> isValidEthiopianDate e = false) /\
  (forall message : string,
     addDaysToEthiopianDate e n = Throws message \/
     addYearsToEthiopianDate e n = Throws message ->
     message = invalidEthiopianDate e /\
     includes message (show (Day e)) /\
     includes message (show (Month e)) /\
     includes message (show (Year e))) /\
  (isValidEthiopianDate e = true ->
   exists r r' : EthiopianDate,
     addDaysToEthiopianDate e n = Returns r /\
     addYearsToEthiopianDate e n = Returns r') /\
  isValidEthiopianDate (new_EthiopianDate 31 1 2016) = false /\
  addDaysToEthiopianDate (new_EthiopianDate 31 1 2016) n =
    Throws "Invalid Ethiopian date 31-1-2016" /\
  addYearsToEthiopianDate (new_EthiopianDate 31 1 2016) n =
    Throws "Invalid Ethiopian date 31-1-2016".
Proof.
  assert (Hd : forall e' : EtDate,
             addDaysToEthiopianDate e' n =
               if isValidEthiopianDate e'
               then Returns (createEthiopianDate (getDayNumber e' + 1 + n))
               else Throws (invalidEthiopianDate e')).
  { intros e'. unfold addDaysToEthiopianDate.
    now destruct (isValidEthiopianDate e'). }
  assert (Hy : forall e' : EtDate,
             isValidEthiopianDate e' = false ->
             addYearsToEthiopianDate e' n = Throws (invalidEthiopianDate e')).
  { intros e' V. unfold addYearsToEthiopianDate. now rewrite V. }
  split; [ | split; [ | split; [ | split; [ | split; [ | split]]]]].
  - rewrite Hd. destruct (isValidEthiopianDate e); simpl; split;
      intros H; try reflexivity; try discriminate; try exact I; destruct H.
  - destruct (isValidEthiopianDate e) eqn:V.
    + rewrite (addYearsToEthiopianDate_returns e n V); simpl.
      split; intros H; [destruct H | discriminate].
    + rewrite (Hy e V); simpl. split; auto.
  - intros message H.
    assert (message = invalidEthiopianDate e) as ->.
    { destruct H as [H | H].
      + rewrite Hd in H. destruct (isValidEthiopianDate e); congruence.
      + destruct (isValidEthiopianDate e) eqn:V.
        * rewrite (addYearsToEthiopianDate_returns e n V) in H. discriminate.
        * rewrite (Hy e V) in H. congruence. }
    split; [reflexivity | apply invalidEthiopianDate_includes].
  - intros V. rewrite Hd, V, (addYearsToEthiopianDate_returns e n V).
    eauto.
  - reflexivity.
  - rewrite Hd. reflexivity.
  - apply (Hy (new_EthiopianDate 31 1 2016)). reflexivity.
Qed.

Lemma add_throws_iff_invalid_witness :
  isValidEthiopianDate (new_EthiopianDate 11 7 2018) = true /\
  exists r r' : EthiopianDate,
    addDaysToEthiopianDate (new_EthiopianDate 11 7 2018) 30 = Returns r /\
    addYearsToEthiopianDate (new_EthiopianDate 11 7 2018) 30 = Returns r'.
Proof.
  split; [reflexivity | ].
  exact (proj1 (proj2 (proj2 (proj2
           (add_throws_iff_invalid (new_EthiopianDate 11 7 2018) 30))))
         eq_refl).
Defined.

(** ** Gregorian side: months of a year *)

Section GregorianMonths.

Variable year : Z.

Lemma getGregorianMonthLength_leap (index : Z) :
  getGregorianMonthLength index year = monthLengthOf index (isLeapYearGr year).
Proof. reflexivity. Qed.

Lemma getGregorianMonthLength_bounds (index : Z) :
  28 <= getGregorianMonthLength index year <= 31.
Proof.
  rewrite getGregorianMonthLength_leap.
  destruct (isLeapYearGr year);
    destruct index as [ | p | p]; simpl; try lia;
    repeat (destruct p as [p | p | ]; simpl; try lia).
Qed.

Lemma addGregorianMonths_table (month : Z) :
  1 <= month <= 12 ->
  addGregorianMonths month year
  = DaysBeforeMonth (month - 1) (isLeapYearGr year).
Proof.
  intros H. unfold addGregorianMonths.
  assert (E : forall l,
             fold_left (fun totalDays currentMonth =>
                          totalDays + monthLengthOf currentMonth l)
               (map Z.of_nat (seq 1 (Z.to_nat (month - 1)))) 0
             = DaysBeforeMonth (month - 1) l).
  { intros l.
    assert (month = 1 \/ month = 2 \/ month = 3 \/ month = 4 \/ month = 5 \/
            month = 6 \/ month = 7 \/ month = 8 \/ month = 9 \/ month = 10 \/
            month = 11 \/ month = 12) as C by lia.
    repeat (destruct C as [-> | C]; [now destruct l | ]).
    subst month. now destruct l. }
  apply E.
Qed.

Lemma addGregorianMonths_december :
  addGregorianMonths 12 year + 31 = yearLength year.
Proof.
  rewrite addGregorianMonths_table by lia. unfold yearLength.
  now destruct (isLeapYearGr year).
Qed.

Lemma monthLoop_leap (fuel : nat) (month dayNumber : Z) :
  monthLoop fuel month year dayNumber
  = monthLoopOf fuel month (isLeapYearGr year) dayNumber.
Proof.
  revert month dayNumber.
  induction fuel as [ | fuel IH]; intros month dayNumber; simpl;
    [reflexivity | ].
  rewrite getGregorianMonthLength_leap.
  destruct (dayNumber <=? _); [reflexivity | apply IH].
Qed.

(** The loop returns once the fuel exceeds the day number. *)
Lemma monthLoop_returns (fuel : nat) (month dayNumber : Z) :
  (Z.to_nat dayNumber < fuel)%nat ->
  exists r : Z * Z, monthLoop fuel month year dayNumber = Some r.
Proof.
  revert month dayNumber.
  induction fuel as [ | fuel IH]; intros month dayNumber Hf; [lia | ].
  simpl. pose proof (getGregorianMonthLength_bounds month) as Hb.
  destruct (Z.leb_spec dayNumber (getGregorianMonthLength month year));
    [eauto | ].
  apply IH. lia.
Qed.

(** Its result does not depend on the fuel. *)
Lemma monthLoop_deterministic (f1 f2 : nat) (month dayNumber : Z) (r1 r2 : Z * Z) :
  monthLoop f1 month year dayNumber = Some r1 ->
  monthLoop f2 month year dayNumber = Some r2 ->
  r1 = r2.
Proof.
  revert f2 month dayNumber.
  induction f1 as [ | f1 IH]; intros [ | f2] month dayNumber; simpl;
    try discriminate.
  destruct (dayNumber <=? getGregorianMonthLength month year).
  - congruence.
  - apply IH.
Qed.

(** Walking a day of the year, counted from 1, through the months. *)
Lemma monthLoopOf_day_of_year (leap : bool) (dayOfYear : Z) :
  1 <= dayOfYear <= 365 + (if leap then 1 else 0) ->
  exists month day : Z,
    monthLoopOf 12 1 leap dayOfYear = Some (month, day) /\
    1 <= month <= 12 /\
    1 <= day <= monthLengthOf month leap /\
    DaysBeforeMonth (month - 1) leap + day = dayOfYear.
Proof.
  intros H.
  destruct leap; cbn [monthLoopOf monthLengthOf Z.add Pos.add Pos.succ];
    repeat (match goal with
            | |- exists _ _, (if ?a <=? ?b then _ else _) = _ /\ _ =>
                destruct (Z.leb_spec a b);
                [do 2 eexists; split; [reflexivity | eval_tables; lia] | ]
            end);
    exfalso; lia.
Qed.

Lemma monthLoop_day_of_year (fuel : nat) (dayOfYear : Z) :
  1 <= dayOfYear <= yearLength year ->
  (Z.to_nat dayOfYear < fuel)%nat ->
  exists month day : Z,
    monthLoop fuel 1 year dayOfYear = Some (month, day) /\
    1 <= month <= 12 /\
    1 <= day <= getGregorianMonthLength month year /\
    addGregorianMonths month year + day = dayOfYear.
Proof.
  intros H Hf.
  destruct (monthLoop_returns fuel 1 dayOfYear Hf) as (r & Hr).
  destruct (monthLoopOf_day_of_year (isLeapYearGr year) dayOfYear)
    as (month & day & E & Hm & Hd & Hs).
  { unfold yearLength in H. destruct (isLeapYearGr year); lia. }
  rewrite <- monthLoop_leap in E.
  rewrite (monthLoop_deterministic _ _ _ _ _ _ Hr E) in Hr.
  exists month, day. rewrite Hr, getGregorianMonthLength_leap,
    addGregorianMonths_table by lia. auto.
Qed.

End GregorianMonths.

(** ** Gregorian side: years *)

Lemma isLeapYearGr_mod (y : Z) :
  0 <= y ->
  isLeapYearGr y
  = (y mod 4 =? 0) && (negb (y mod 100 =? 0) || (y mod 400 =? 0)).
Proof.
  intros H. unfold isLeapYearGr. now rewrite !Z.rem_mod_nonneg by lia.
Qed.

Lemma daysBeforeYear_succ (y : Z) :
  0 <= y -> daysBeforeYear (y + 1) = daysBeforeYear y + yearLength y.
Proof.
  intros H. unfold daysBeforeYear, yearLength.
  rewrite isLeapYearGr_mod by assumption.
  replace (y + 1 - 1) with y by lia.
  destruct (Z.eqb_spec (y mod 4) 0), (Z.eqb_spec (y mod 100) 0),
    (Z.eqb_spec (y mod 400) 0); cbn [andb orb negb];
    Z.div_mod_to_equations; lia.
Qed.

Lemma yearLength_bounds (y : Z) : 365 <= yearLength y <= 366.
Proof. unfold yearLength. destruct (isLeapYearGr y); lia. Qed.

Lemma daysBeforeYear_monotone (y y' : Z) :
  0 <= y <= y' -> daysBeforeYear y <= daysBeforeYear y'.
Proof.
  intros H. replace y' with (y + Z.of_nat (Z.to_nat (y' - y))) by lia.
  induction (Z.to_nat (y' - y)) as [ | k IH].
  - replace (y + Z.of_nat 0) with y by lia. lia.
  - replace (y + Z.of_nat (S k)) with (y + Z.of_nat k + 1) by lia.
    rewrite daysBeforeYear_succ by lia.
    pose proof (yearLength_bounds (y + Z.of_nat k)). lia.
Qed.

(** The days of whole cycles before the year they lead to. *)
Lemma daysBeforeYear_cycles (k h f s : Z) :
  0 <= h <= 3 -> 0 <= f <= 24 -> 0 <= s <= 3 ->
  daysBeforeYear (1 + (400 * k + 100 * h + 4 * f + s))
  = 146097 * k + 36524 * h + 1461 * f + 365 * s.
Proof.
  intros Hh Hf Hs. unfold daysBeforeYear.
  replace (1 + (400 * k + 100 * h + 4 * f + s) - 1)
    with (400 * k + 100 * h + 4 * f + s) by lia.
  replace ((400 * k + 100 * h + 4 * f + s) / 4) with (100 * k + 25 * h + f)
    by (apply Z.div_unique with (r := s); lia).
  replace ((400 * k + 100 * h + 4 * f + s) / 100) with (4 * k + h)
    by (apply Z.div_unique with (r := 4 * f + s); lia).
  replace ((400 * k + 100 * h + 4 * f + s) / 400) with k
    by (apply Z.div_unique with (r := 100 * h + 4 * f + s); lia).
  lia.
Qed.

(** The cycle counts and remainders that gregorianDateFromDayNo
    computes from a day number, in the order of the source. *)
Lemma cycles_of_day_number (n : Z) :
  let k := n / 146097 in
  let d1 := Z.rem n 146097 in
  let h := Z.min (d1 / 36524) 3 in
  let d2 := d1 - h * 36524 in
  let f := d2 / 1461 in
  let d3 := Z.rem d2 1461 in
  let s := Z.min (d3 / 365) 3 in
  let d4 := d3 - s * 365 in
  1 <= n ->
  (0 <= k /\ 0 <= h <= 3 /\ 0 <= f <= 24 /\ 0 <= s <= 3) /\
  (0 <= d1 /\ 0 <= d2 /\ 0 <= d3 /\ 0 <= d4 <= 365) /\
  (n = 146097 * k + d1 /\ d1 = 36524 * h + d2 /\
   d2 = 1461 * f + d3 /\ d3 = 365 * s + d4) /\
  (d1 = 0 -> 1 <= k) /\
  (d2 = 0 -> d1 <> 0 -> 1 <= h) /\
  (d3 = 0 -> d2 <> 0 -> 1 <= f) /\
  (d4 = 0 -> d3 <> 0 -> 1 <= s).
Proof.
  intros k d1 h d2 f d3 s d4 Hn.
  assert (E1 : d1 = n mod 146097)
    by (subst d1; apply Z.rem_mod_nonneg; lia).
  assert (K : 0 <= k /\ 0 <= d1 < 146097 /\ n = 146097 * k + d1).
  { subst k. rewrite E1. Z.div_mod_to_equations. lia. }
  assert (H : 0 <= h <= 3 /\ 0 <= d2 <= 36524 /\ d1 = 36524 * h + d2 /\
              (d2 = 0 -> d1 <> 0 -> 1 <= h)).
  { subst d2 h. Z.div_mod_to_equations. lia. }
  assert (E3 : d3 = d2 mod 1461)
    by (subst d3; apply Z.rem_mod_nonneg; lia).
  assert (F : 0 <= f <= 24 /\ 0 <= d3 < 1461 /\ d2 = 1461 * f + d3 /\
              (d3 = 0 -> d2 <> 0 -> 1 <= f)).
  { subst f. rewrite E3. Z.div_mod_to_equations. lia. }
  assert (S : 0 <= s <= 3 /\ 0 <= d4 <= 365 /\ d3 = 365 * s + d4 /\
              (d4 = 0 -> d3 <> 0 -> 1 <= s)).
  { subst d4 s. Z.div_mod_to_equations. lia. }
  repeat split; lia.
Qed.

(** ** Gregorian side: encoding and decoding of day numbers *)

Lemma getGregorianDayNumber_mkDate (y m d : Z) :
  getGregorianDayNumber (mkDate y (m - 1) d) = dayNumberOf y m d.
Proof.
  unfold getGregorianDayNumber, dayNumberOf, daysBeforeYear.
  cbn [getFullYear getMonth getDate].
  replace (m - 1 + 1) with m by lia. lia.
Qed.

Lemma new_Date_year_100 (y mi d : Z) :
  100 <= y -> new_Date y mi d = mkDate y mi d.
Proof.
  intros H. unfold new_Date.
  destruct (Z.leb_spec 0 y), (Z.leb_spec y 99); simpl; try reflexivity; lia.
Qed.

Lemma dayNumberOf_december_31 (k h f s : Z) :
  0 <= h <= 3 -> 0 <= f <= 24 -> 0 <= s <= 3 ->
  0 <= 400 * k + 100 * h + 4 * f + s ->
  dayNumberOf (400 * k + 100 * h + 4 * f + s) 12 31
  = 146097 * k + 36524 * h + 1461 * f + 365 * s.
Proof.
  intros Hh Hf Hs Hy. unfold dayNumberOf.
  rewrite <- Z.add_assoc, addGregorianMonths_december.
  rewrite <- daysBeforeYear_succ by assumption.
  rewrite Z.add_comm. now apply daysBeforeYear_cycles.
Qed.

(** The decoder returns on every day number from 1 on, with a day of
    the Gregorian calendar whose day number is the one it was given. *)
Lemma gregorianDateFromDayNo_decodes (n : Z) :
  1 <= n ->
  exists y m d : Z,
    gregorianDateFromDayNo n = Some (new_Date y (m - 1) d) /\
    1 <= y /\ 1 <= m <= 12 /\
    1 <= d <= getGregorianMonthLength m y /\
    dayNumberOf y m d = n.
Proof.
  intros Hn. pose proof (cycles_of_day_number n) as C.
  unfold gregorianDateFromDayNo. cbv zeta in *.
  set (k := n / 146097) in *. set (d1 := Z.rem n 146097) in *.
  set (h := Z.min (d1 / 36524) 3) in *. set (d2 := d1 - h * 36524) in *.
  set (f := d2 / 1461) in *. set (d3 := Z.rem d2 1461) in *.
  set (s := Z.min (d3 / 365) 3) in *. set (d4 := d3 - s * 365) in *.
  destruct (C Hn) as ((Hk & Hh & Hf & Hs) & (H1 & H2 & H3 & H4)
                      & (E1 & E2 & E3 & E4) & Z1 & Z2 & Z3 & Z4).
  clear C.
  destruct (Z.eqb_spec d1 0) as [D1 | D1].
  { exists (400 * k), 12, 31. repeat split; try reflexivity; try lia.
    replace (400 * k) with (400 * k + 100 * 0 + 4 * 0 + 0) by lia.
    rewrite dayNumberOf_december_31; lia. }
  destruct (Z.eqb_spec d2 0) as [D2 | D2].
  { exists (400 * k + 100 * h), 12, 31.
    repeat split; try reflexivity; try lia.
    replace (400 * k + 100 * h) with (400 * k + 100 * h + 4 * 0 + 0) by lia.
    rewrite dayNumberOf_december_31; lia. }
  destruct (Z.eqb_spec d3 0) as [D3 | D3].
  { exists (400 * k + 100 * h + 4 * f), 12, 31.
    repeat split; try reflexivity; try lia.
    replace (400 * k + 100 * h + 4 * f)
      with (400 * k + 100 * h + 4 * f + 0) by lia.
    rewrite dayNumberOf_december_31; lia. }
  destruct (Z.eqb_spec d4 0) as [D4 | D4].
  { exists (400 * k + 100 * h + 4 * f + s), 12, 31.
    repeat split; try reflexivity; try lia.
    rewrite dayNumberOf_december_31; lia. }
  set (year := 1 + (400 * k + 100 * h + 4 * f + s)).
  destruct (monthLoop_day_of_year year (S (Z.to_nat d4)) d4)
    as (month & day & E & Hm & Hd & Hsum).
  { pose proof (yearLength_bounds year). lia. }
  { lia. }
  rewrite E. exists year, month, day.
  repeat split; try lia.
  unfold dayNumberOf. subst year.
  rewrite daysBeforeYear_cycles by lia. lia.
Qed.

Lemma dayOfYear_bounds_gr (y m d : Z) :
  1 <= m <= 12 -> 1 <= d <= getGregorianMonthLength m y ->
  1 <= addGregorianMonths m y + d <= yearLength y.
Proof.
  intros Hm Hd. rewrite addGregorianMonths_table by assumption.
  rewrite getGregorianMonthLength_leap in Hd. unfold yearLength.
  assert (m = 1 \/ m = 2 \/ m = 3 \/ m = 4 \/ m = 5 \/ m = 6 \/ m = 7 \/
          m = 8 \/ m = 9 \/ m = 10 \/ m = 11 \/ m = 12) as C by lia.
  destruct (isLeapYearGr y);
    repeat (destruct C as [-> | C]; [eval_tables; lia | ]);
    subst m; eval_tables; lia.
Qed.

Lemma dayNumberOf_bounds (y m d : Z) :
  0 <= y -> 1 <= m <= 12 -> 1 <= d <= getGregorianMonthLength m y ->
  daysBeforeYear y < dayNumberOf y m d <= daysBeforeYear (y + 1).
Proof.
  intros Hy Hm Hd. pose proof (dayOfYear_bounds_gr y m d Hm Hd).
  rewrite daysBeforeYear_succ by assumption. unfold dayNumberOf. lia.
Qed.

Lemma dayOfYear_injective (l : bool) (m d m' d' : Z) :
  1 <= m <= 12 -> 1 <= d <= monthLengthOf m l ->
  1 <= m' <= 12 -> 1 <= d' <= monthLengthOf m' l ->
  DaysBeforeMonth (m - 1) l + d = DaysBeforeMonth (m' - 1) l + d' ->
  m = m' /\ d = d'.
Proof.
  intros Hm Hd Hm' Hd' E.
  assert (m = 1 \/ m = 2 \/ m = 3 \/ m = 4 \/ m = 5 \/ m = 6 \/ m = 7 \/
          m = 8 \/ m = 9 \/ m = 10 \/ m = 11 \/ m = 12) as C by lia.
  assert (m' = 1 \/ m' = 2 \/ m' = 3 \/ m' = 4 \/ m' = 5 \/ m' = 6 \/
          m' = 7 \/ m' = 8 \/ m' = 9 \/ m' = 10 \/ m' = 11 \/ m' = 12)
    as C' by lia.
  destruct l;
    repeat (destruct C as [-> | C]);
    try subst m;
    repeat (destruct C' as [-> | C']);
    try subst m';
    eval_tables; lia.
Qed.

Lemma dayNumberOf_injective (y m d y' m' d' : Z) :
  0 <= y -> 1 <= m <= 12 -> 1 <= d <= getGregorianMonthLength m y ->
  0 <= y' -> 1 <= m' <= 12 -> 1 <= d' <= getGregorianMonthLength m' y' ->
  dayNumberOf y m d = dayNumberOf y' m' d' ->
  y = y' /\ m = m' /\ d = d'.
Proof.
  intros Hy Hm Hd Hy' Hm' Hd' E.
  pose proof (dayNumberOf_bounds y m d Hy Hm Hd) as B.
  pose proof (dayNumberOf_bounds y' m' d' Hy' Hm' Hd') as B'.
  assert (y = y') as <-.
  { destruct (Z.lt_trichotomy y y') as [L | [L | L]]; [ | assumption | ].
    - pose proof (daysBeforeYear_monotone (y + 1) y' ltac:(lia)). lia.
    - pose proof (daysBeforeYear_monotone (y' + 1) y ltac:(lia)). lia. }
  split; [reflexivity | ].
  unfold dayNumberOf in E.
  rewrite !addGregorianMonths_table in E by assumption.
  rewrite getGregorianMonthLength_leap in Hd, Hd'.
  apply (dayOfYear_injective (isLeapYearGr y)); try assumption. lia.
Qed.

Lemma gregorianDateFromDayNo_getGregorianDayNumber (g : Date) :
  isGregorianCalendarDay g -> 100 <= getFullYear g ->
  gregorianDateFromDayNo (getGregorianDayNumber g) = Some g.
Proof.
  destruct g as [y mi d]. unfold isGregorianCalendarDay; simpl.
  intros (Hm & Hd) Hy.
  replace mi with (mi + 1 - 1) at 1 by lia.
  rewrite getGregorianDayNumber_mkDate.
  pose proof (dayNumberOf_bounds y (mi + 1) d ltac:(lia) ltac:(lia) Hd) as B.
  pose proof (daysBeforeYear_monotone 1 y ltac:(lia)) as M.
  change (daysBeforeYear 1) with 0 in M.
  destruct (gregorianDateFromDayNo_decodes (dayNumberOf y (mi + 1) d))
    as (y' & m' & d' & E & Hy' & Hm' & Hd' & En); [lia | ].
  destruct (dayNumberOf_injective y' m' d' y (mi + 1) d) as (-> & -> & ->);
    try assumption; try lia.
  rewrite E, new_Date_year_100 by assumption.
  do 2 f_equal. lia.
Qed.

(** The decoder returns on every integer, and what it hands to the
    [Date] constructor is always a month index in 0..11 with a day of
    that month. *)
Lemma gregorianDateFromDayNo_wellformed (n : Z) :
  exists y m d : Z,
    gregorianDateFromDayNo n = Some (new_Date y (m - 1) d) /\
    1 <= m <= 12 /\ 1 <= d <= getGregorianMonthLength m y.
Proof.
  unfold gregorianDateFromDayNo. cbv zeta.
  set (k := n / 146097). set (d1 := Z.rem n 146097).
  set (h := Z.min (d1 / 36524) 3). set (d2 := d1 - h * 36524).
  set (f := d2 / 1461). set (d3 := Z.rem d2 1461).
  set (s := Z.min (d3 / 365) 3). set (d4 := d3 - s * 365).
  assert (H2 : 0 <= d2) by (subst d2 h; Z.div_mod_to_equations; lia).
  assert (E3 : d3 = d2 mod 1461)
    by (subst d3; apply Z.rem_mod_nonneg; lia).
  assert (H3 : 0 <= d3 < 1461)
    by (rewrite E3; apply Z.mod_pos_bound; lia).
  assert (H4 : 0 <= d4 <= 365) by (subst d4 s; Z.div_mod_to_equations; lia).
  destruct (Z.eqb_spec d1 0);
    [exists (400 * k), 12, 31; repeat split; try reflexivity; lia | ].
  destruct (Z.eqb_spec d2 0);
    [exists (400 * k + 100 * h), 12, 31;
     repeat split; try reflexivity; lia | ].
  destruct (Z.eqb_spec d3 0);
    [exists (400 * k + 100 * h + 4 * f), 12, 31;
     repeat split; try reflexivity; lia | ].
  destruct (Z.eqb_spec d4 0);
    [exists (400 * k + 100 * h + 4 * f + s), 12, 31;
     repeat split; try reflexivity; lia | ].
  set (year := 1 + (400 * k + 100 * h + 4 * f + s)).
  destruct (monthLoop_day_of_year year (S (Z.to_nat d4)) d4)
    as (month & day & E & Hm & Hd & _).
  { pose proof (yearLength_bounds year). lia. }
  { lia. }
  rewrite E. exists year, month, day. auto.
Qed.

Lemma gregorianDateFromDayNo_returns (n : Z) :
  exists g : Date, gregorianDateFromDayNo n = Some g.
Proof.
  destruct (gregorianDateFromDayNo_wellformed n) as (y & m & d & E & _).
  eauto.
Qed.

(** ** Round trip of the two conversions *)

Lemma getDayNumber_valid_lower_bound (e : EtDate) :
  isValidEthiopianDate e = true -> 365250 <= getDayNumber e.
Proof.
  intros V. pose proof (isValidEthiopianDate_wellFormed e V) as W.
  apply isValidEthiopianDate_spec in V. destruct V as (Vy & _).
  pose proof (getDayNumber_year_start e W) as (H & _). cbv zeta in H.
  revert H. Z.div_mod_to_equations. lia.
Qed.

Lemma daysBeforeYear_small (y : Z) :
  y <= 100 -> daysBeforeYear y <= 36159.
Proof. intros H. unfold daysBeforeYear. Z.div_mod_to_equations. lia. Qed.

Lemma toEthiopian_toGregorian (e : EtDate) :
  isValidEthiopianDate e = true ->
  exists g : Date,
    toGregorian e = Some g /\ isGregorianCalendarDay g /\ toEthiopian g = e.
Proof.
  intros V. pose proof (getDayNumber_valid_lower_bound e V) as Hn.
  unfold toGregorian, toEthiopian, ETHIOPIAN_CALENDAR_OFFSET.
  destruct (gregorianDateFromDayNo_decodes (getDayNumber e + 2431))
    as (y & m & d & E & Hy & Hm & Hd & En); [lia | ].
  assert (100 <= y) as Hy100.
  { pose proof (dayNumberOf_bounds y m d ltac:(lia) Hm Hd) as B.
    destruct (Z.le_gt_cases (y + 1) 100) as [L | L]; [ | lia].
    pose proof (daysBeforeYear_small (y + 1) L). lia. }
  rewrite new_Date_year_100 in E by assumption.
  exists (mkDate y (m - 1) d). split; [assumption | split].
  - unfold isGregorianCalendarDay; cbn [getFullYear getMonth getDate].
    replace (m - 1 + 1) with m by lia. lia.
  - rewrite getGregorianDayNumber_mkDate, En.
    replace (getDayNumber e + 2431 - 2431) with (getDayNumber e) by lia.
    apply createEthiopianDate_getDayNumber.
    now apply isValidEthiopianDate_wellFormed.
Qed.

Lemma createEthiopianDate_year_1000 (n : Z) :
  1000 <= Year (createEthiopianDate n) -> 365000 <= n.
Proof.
  unfold createEthiopianDate.
  destruct (Z.eqb_spec (Z.rem n 1461) 1460) as [E | E];
    cbn [negb Year]; intros H; revert H;
    Z.to_euclidean_division_equations; lia.
Qed.

Lemma toGregorian_toEthiopian (g : Date) :
  isGregorianCalendarDay g ->
  1000 <= Year (toEthiopian g) ->
  toGregorian (toEthiopian g) = Some g.
Proof.
  intros G Hy. pose proof G as (Hm & Hd).
  unfold toEthiopian, ETHIOPIAN_CALENDAR_OFFSET in *.
  apply createEthiopianDate_year_1000 in Hy.
  unfold toGregorian, ETHIOPIAN_CALENDAR_OFFSET.
  rewrite getDayNumber_createEthiopianDate by lia.
  replace (getGregorianDayNumber g - 2431 + 2431)
    with (getGregorianDayNumber g) by lia.
  apply gregorianDateFromDayNo_getGregorianDayNumber; [assumption | ].
  destruct g as [y mi d]; cbn [getFullYear getMonth getDate] in *.
  replace mi with (mi + 1 - 1) in Hy at 1 by lia.
  rewrite getGregorianDayNumber_mkDate in Hy.
  pose proof (dayOfYear_bounds_gr y (mi + 1) d ltac:(lia) Hd) as B.
  pose proof (yearLength_bounds y).
  destruct (Z.le_gt_cases y 99) as [L | L]; [ | lia].
  pose proof (daysBeforeYear_small y ltac:(lia)).
  unfold dayNumberOf in Hy. lia.
Qed.

(** C1.  toEthiopian and toGregorian are exact inverses: for every
    Ethiopian date e accepted by isValidEthiopianDate,
    toEthiopian(toGregorian(e)) is e, and for every Gregorian calendar
    day g whose Ethiopian year lies in 1000..3000,
    toGregorian(toEthiopian(g)) is g. *)
Theorem toEthiopian_toGregorian_inverses (e : EtDate) (g : Date) :
  (isValidEthiopianDate e = true ->
   exists g' : Date, toGregorian e = Some g' /\ toEthiopian g' = e) /\
  (isGregorianCalendarDay g ->
   1000 <= Year (toEthiopian g) <= 3000 ->
   toGregorian (toEthiopian g) = Some g).
Proof.
  split.
  - intros V. destruct (toEthiopian_toGregorian e V) as (g' & E & _ & R).
    eauto.
  - intros G (Hy & _). now apply toGregorian_toEthiopian.
Qed.

Lemma toEthiopian_toGregorian_inverses_witness :
  let e := new_EthiopianDate 6 13 2019 in
  let g := mkDate 2024 1 29 in
  (isValidEthiopianDate e = true /\ isGregorianCalendarDay g /\
   1000 <= Year (toEthiopian g) <= 3000) /\
  (exists g' : Date, toGregorian e = Some g' /\ toEthiopian g' = e) /\
  toGregorian (toEthiopian g) = Some g.
Proof.
  cbv zeta.
  assert (V : isValidEthiopianDate (new_EthiopianDate 6 13 2019) = true)
    by reflexivity.
  assert (G : isGregorianCalendarDay (mkDate 2024 1 29))
    by (vm_compute; intuition discriminate).
  assert (Y : 1000 <= Year (toEthiopian (mkDate 2024 1 29)) <= 3000)
    by (vm_compute; intuition discriminate).
  split; [auto | ].
  pose proof (toEthiopian_toGregorian_inverses
                (new_EthiopianDate 6 13 2019) (mkDate 2024 1 29)) as (A & B).
  split; [exact (A V) | exact (B G Y)].
Defined.

(** ** Zero remainders in the decoder *)

(** From year 100 on the zero remainders of gregorianDateFromDayNo
    resolve as intended.  For a day number n >= 1: a zero remainder at
    the 400-year level gives December 31 of year 400*(n/146097), so
    every positive multiple of 146097 does; a zero remainder after the
    100-year blocks gives December 31 of the year completing them; a
    zero remainder after the 4-year blocks or after the single years
    gives December 31 of the year completing them when that year is at
    least 100.  In each case the date is the one whose day number
    is n. *)
Theorem zero_remainder_is_december_31 (n : Z) :
  1 <= n ->
  let k := n / 146097 in
  let d1 := n mod 146097 in
  let h := Z.min (d1 / 36524) 3 in
  let d2 := d1 - 36524 * h in
  let f := d2 / 1461 in
  let d3 := d2 mod 1461 in
  let s := Z.min (d3 / 365) 3 in
  let d4 := d3 - 365 * s in
  forall completed : Z,
    (d1 = 0 /\ completed = 400 * k) \/
    (d1 <> 0 /\ d2 = 0 /\ completed = 400 * k + 100 * h) \/
    (d1 <> 0 /\ d2 <> 0 /\ d3 = 0 /\
     completed = 400 * k + 100 * h + 4 * f /\ 100 <= completed) \/
    (d1 <> 0 /\ d2 <> 0 /\ d3 <> 0 /\ d4 = 0 /\
     completed = 400 * k + 100 * h + 4 * f + s /\ 100 <= completed) ->
    gregorianDateFromDayNo n = Some (mkDate completed (12 - 1) 31) /\
    getGregorianDayNumber (mkDate completed (12 - 1) 31) = n.
Proof.
  intros Hn k d1 h d2 f d3 s d4 completed Hcase.
  pose proof (cycles_of_day_number n) as C. cbv zeta in C.
  rewrite (Z.rem_mod_nonneg n 146097) in C by lia.
  fold d1 in C. fold h in C.
  replace (d1 - h * 36524) with d2 in C by (subst d2; lia).
  assert (H2 : 0 <= d2) by (subst d2 h; Z.div_mod_to_equations; lia).
  rewrite (Z.rem_mod_nonneg d2 1461) in C by lia.
  fold f in C. fold d3 in C. fold s in C.
  replace (d3 - s * 365) with d4 in C by (subst d4; lia).
  destruct (C Hn) as ((Hk & Hh & Hf & Hs) & (H1 & _ & H3 & H4)
                      & (E1 & E2 & E3 & E4) & Z1 & Z2 & Z3 & Z4).
  clear C.
  assert (R : gregorianDateFromDayNo n = Some (new_Date completed (12 - 1) 31)).
  { unfold gregorianDateFromDayNo. cbv zeta.
    rewrite (Z.rem_mod_nonneg n 146097) by lia.
    fold k. fold d1. fold h.
    replace (d1 - h * 36524) with d2 by (subst d2; lia).
    rewrite (Z.rem_mod_nonneg d2 1461) by lia.
    fold f. fold d3. fold s.
    replace (d3 - s * 365) with d4 by (subst d4; lia).
    destruct Hcase as [(D1 & ->) | [(D1 & D2 & ->) |
      [(D1 & D2 & D3 & -> & _) | (D1 & D2 & D3 & D4 & -> & _)]]].
    - rewrite D1. reflexivity.
    - destruct (Z.eqb_spec d1 0); [contradiction | ].
      rewrite D2. reflexivity.
    - destruct (Z.eqb_spec d1 0); [contradiction | ].
      destruct (Z.eqb_spec d2 0); [contradiction | ].
      rewrite D3. reflexivity.
    - destruct (Z.eqb_spec d1 0); [contradiction | ].
      destruct (Z.eqb_spec d2 0); [contradiction | ].
      destruct (Z.eqb_spec d3 0); [contradiction | ].
      rewrite D4. reflexivity. }
  assert (Hc : 100 <= completed /\
               completed = 400 * k + 100 * h + 4 * f + s /\ d4 = 0).
  { destruct Hcase as [(D1 & ->) | [(D1 & D2 & ->) |
      [(D1 & D2 & D3 & -> & Hc) | (D1 & D2 & D3 & D4 & -> & Hc)]]]; lia. }
  destruct Hc as (Hc & Ec & D4).
  rewrite new_Date_year_100 in R by assumption.
  split; [assumption | ].
  rewrite getGregorianDayNumber_mkDate, Ec.
  rewrite dayNumberOf_december_31; lia.
Qed.

Lemma zero_remainder_is_december_31_witness :
  (1 <= 146097 * 5 /\ 1 <= 37985 /\ 1 <= 37254) /\
  (gregorianDateFromDayNo (146097 * 5) = Some (mkDate 2000 11 31) /\
   getGregorianDayNumber (mkDate 2000 11 31) = 146097 * 5) /\
  (gregorianDateFromDayNo 37985 = Some (mkDate 104 11 31) /\
   getGregorianDayNumber (mkDate 104 11 31) = 37985) /\
  (gregorianDateFromDayNo 37254 = Some (mkDate 102 11 31) /\
   getGregorianDayNumber (mkDate 102 11 31) = 37254).
Proof.
  split; [lia | ]. split; [ | split].
  - apply (zero_remainder_is_december_31 (146097 * 5) ltac:(lia) 2000).
    left. split; reflexivity.
  - apply (zero_remainder_is_december_31 37985 ltac:(lia) 104).
    right; right; left. vm_compute. intuition discriminate.
  - apply (zero_remainder_is_december_31 37254 ltac:(lia) 102).
    right; right; right. vm_compute. intuition discriminate.
Defined.

(** C5, on the code.  At day number 1461 the remainder after the
    4-year blocks is zero and the blocks complete year 4, whose
    December 31 is the day that getGregorianDayNumber numbers 1461; the
    code builds it with new Date(4, 11, 31), which the host reads as
    December 31 of 1904.  The same happens after the single years, at
    day number 365 and year 1, and through toGregorian: the Ethiopian
    date 7/5/1 has day number 491 + 2431 = 2922, the number of
    December 31 of year 8, and comes back as December 31 of 1908. *)
Theorem zero_remainder_below_year_100 :
  (1461 mod 146097 <> 0 /\ (1461 mod 146097) mod 1461 = 0 /\
   getGregorianDayNumber (mkDate 4 11 31) = 1461 /\
   gregorianDateFromDayNo 1461 = Some (mkDate 1904 11 31) /\
   gregorianDateFromDayNo 1461 <> Some (mkDate 4 11 31)) /\
  (getGregorianDayNumber (mkDate 1 11 31) = 365 /\
   gregorianDateFromDayNo 365 = Some (mkDate 1901 11 31)) /\
  (getDayNumber (new_EthiopianDate 7 5 1) + ETHIOPIAN_CALENDAR_OFFSET = 2922 /\
   getGregorianDayNumber (mkDate 8 11 31) = 2922 /\
   toGregorian (new_EthiopianDate 7 5 1) = Some (mkDate 1908 11 31)).
Proof. vm_compute. repeat split; discriminate. Qed.

(** ** First weekday of a month *)

Lemma getMonthStartDay_from_getUTCDay (aheadOfUTC : bool) (month year : Z) :
  exists g : Date,
    toGregorian (new_EthiopianDate 1 month year) = Some g /\
    getMonthStartDay aheadOfUTC month year = Some (getUTCDay aheadOfUTC g + 1) /\
    1 <= getUTCDay aheadOfUTC g + 1 <= 7.
Proof.
  unfold getMonthStartDay, toGregorian.
  destruct (gregorianDateFromDayNo_returns
              (getDayNumber (new_EthiopianDate 1 month year)
               + ETHIOPIAN_CALENDAR_OFFSET)) as (g & ->).
  exists g. split; [reflexivity | ].
  assert (B : 0 <= getUTCDay aheadOfUTC g < 7)
    by (unfold getUTCDay, WeekDay; apply Z.mod_pos_bound; lia).
  split; [ | lia].
  destruct (Z.eqb_spec (getUTCDay aheadOfUTC g) 0) as [E | E].
  - rewrite E. reflexivity.
  - rewrite Z.rem_mod_nonneg, Z.mod_small by lia. reflexivity.
Qed.

(** On a host ahead of UTC the result is the Monday = 1 .. Sunday = 7
    number of the weekday of the month's first day. *)
Lemma getMonthStartDay_ahead_of_UTC (month year : Z) :
  exists g : Date,
    toGregorian (new_EthiopianDate 1 month year) = Some g /\
    getMonthStartDay true month year = Some (mondayFirst (getDay g)).
Proof.
  destruct (getMonthStartDay_from_getUTCDay true month year)
    as (g & E & R & _).
  exists g. split; [assumption | ]. rewrite R. f_equal.
  unfold getUTCDay, getDay, mondayFirst, WeekDay.
  destruct (Z.eqb_spec ((MakeDay g + 4) mod 7) 0);
    Z.div_mod_to_equations; lia.
Qed.

(** On any other host it is one more than the Sunday = 0 number of
    that weekday, which is never its Monday = 1 .. Sunday = 7 number. *)
Lemma getMonthStartDay_not_ahead_of_UTC (month year : Z) :
  exists g : Date,
    toGregorian (new_EthiopianDate 1 month year) = Some g /\
    getMonthStartDay false month year = Some (getDay g + 1) /\
    getDay g + 1 <> mondayFirst (getDay g).
Proof.
  destruct (getMonthStartDay_from_getUTCDay false month year)
    as (g & E & R & _).
  exists g. split; [assumption | ].
  unfold getUTCDay in R. rewrite Z.sub_0_r in R. fold (getDay g) in R.
  split; [assumption | ].
  assert (B : 0 <= getDay g < 7)
    by (unfold getDay, WeekDay; apply Z.mod_pos_bound; lia).
  unfold mondayFirst. destruct (Z.eqb_spec (getDay g) 0); lia.
Qed.

(** C4, on the code.  The first day of month 1 of 2016 is Tuesday,
    September 12, 2023; on a host that is not ahead of UTC
    getMonthStartDay(1, 2016) is 3, where Monday = 1 .. Sunday = 7
    gives 2.  The result is always in 1..7. *)
Theorem getMonthStartDay_2016_month_1 :
  toGregorian (new_EthiopianDate 1 1 2016) = Some (mkDate 2023 8 12) /\
  getDay (mkDate 2023 8 12) = 2 /\
  mondayFirst (getDay (mkDate 2023 8 12)) = 2 /\
  getMonthStartDay false 1 2016 = Some 3 /\
  getMonthStartDay true 1 2016 = Some 2 /\
  (forall (aheadOfUTC : bool) (month year : Z),
     exists r : Z,
       getMonthStartDay aheadOfUTC month year = Some r /\ 1 <= r <= 7).
Proof.
  repeat (split; [vm_compute; reflexivity | ]).
  intros aheadOfUTC month year.
  destruct (getMonthStartDay_from_getUTCDay aheadOfUTC month year)
    as (g & _ & R & B).
  eauto.
Qed.

(** * Further properties of the engine *)

(** ** Ethiopian years and month lengths *)

Lemma isEthiopianLeapYear_negative (y : Z) :
  y < 0 -> isEthiopianLeapYear y = false.
Proof.
  intros H. unfold isEthiopianLeapYear.
  destruct (Z.eqb_spec (Z.rem y 4) 3) as [E | E]; [ | reflexivity].
  pose proof (Z.rem_nonpos y 4 ltac:(lia) ltac:(lia)). lia.
Qed.

(** X1.  isEthiopianLeapYear holds of a year y >= 0 exactly when
    y mod 4 = 3, so exactly one of any four consecutive such years is a
    leap year; it holds of no negative year, the remainder of a negative
    number being never positive. *)
Theorem isEthiopianLeapYear_cycle (y : Z) :
  (0 <= y ->
   (isEthiopianLeapYear y = true <-> y mod 4 = 3) /\
   Z.b2z (isEthiopianLeapYear y) + Z.b2z (isEthiopianLeapYear (y + 1))
   + Z.b2z (isEthiopianLeapYear (y + 2)) + Z.b2z (isEthiopianLeapYear (y + 3))
   = 1) /\
  (y < 0 -> isEthiopianLeapYear y = false).
Proof.
  split; [ | apply isEthiopianLeapYear_negative].
  intros H. rewrite !isEthiopianLeapYear_nonneg by lia. split.
  - apply Z.eqb_eq.
  - destruct (Z.eqb_spec (y mod 4) 3), (Z.eqb_spec ((y + 1) mod 4) 3),
      (Z.eqb_spec ((y + 2) mod 4) 3), (Z.eqb_spec ((y + 3) mod 4) 3);
      cbn [Z.b2z]; Z.div_mod_to_equations; lia.
Qed.

Lemma isEthiopianLeapYear_cycle_witness :
  (0 <= 2016 /\ -1 < 0) /\
  Z.b2z (isEthiopianLeapYear 2016) + Z.b2z (isEthiopianLeapYear (2016 + 1))
  + Z.b2z (isEthiopianLeapYear (2016 + 2))
  + Z.b2z (isEthiopianLeapYear (2016 + 3)) = 1 /\
  isEthiopianLeapYear (-1) = false.
Proof.
  split; [lia | ]. split.
  - exact (proj2 (proj1 (isEthiopianLeapYear_cycle 2016) ltac:(lia))).
  - exact (proj2 (isEthiopianLeapYear_cycle (-1)) ltac:(lia)).
Defined.

(** X2.  For a year y >= 0 the lengths of the months 1..13 add up to
    the distance between the day numbers of the first days of the years
    y and y + 1: 366 days in a leap year and 365 otherwise. *)
Theorem ethiopian_year_length (y : Z) :
  0 <= y ->
  let monthLengths :=
    map (fun m => getEthiopianMonthLength (Z.of_nat m) y) (seq 1 13) in
  fold_right Z.add 0 monthLengths
  = getDayNumber (new_EthiopianDate 1 1 (y + 1))
    - getDayNumber (new_EthiopianDate 1 1 y) /\
  fold_right Z.add 0 monthLengths
  = if isEthiopianLeapYear y then 366 else 365.
Proof.
  intros H monthLengths.
  assert (S : fold_right Z.add 0 monthLengths
              = if isEthiopianLeapYear y then 366 else 365).
  { subst monthLengths. unfold getEthiopianMonthLength.
    cbn [seq map fold_right Z.of_nat Pos.of_succ_nat Pos.succ Z.eqb Pos.eqb].
    destruct (isEthiopianLeapYear y); reflexivity. }
  split; [ | exact S]. rewrite S.
  rewrite isEthiopianLeapYear_nonneg by lia.
  unfold getDayNumber, ETHIOPIAN_DAYS_IN_MONTH; cbn [Year Month Day].
  rewrite !Z.rem_mod_nonneg by lia.
  destruct (Z.eqb_spec (y mod 4) 3); Z.div_mod_to_equations; lia.
Qed.

Lemma ethiopian_year_length_witness :
  0 <= 2019 /\
  fold_right Z.add 0
    (map (fun m => getEthiopianMonthLength (Z.of_nat m) 2019) (seq 1 13))
  = 366.
Proof.
  split; [lia | ].
  exact (proj2 (ethiopian_year_length 2019 ltac:(lia))).
Defined.

(** ** Decoding Ethiopian day numbers *)

Lemma createEthiopianDate_wellFormed (n : Z) :
  0 <= n -> wellFormedEt (createEthiopianDate n).
Proof.
  intros Hn. unfold createEthiopianDate, wellFormedEt.
  rewrite (Z.rem_mod_nonneg n 1461) by lia.
  assert (Hc : 0 <= n / 1461) by (apply Z.div_pos; lia).
  pose proof (Z.mod_pos_bound n 1461 ltac:(lia)) as Hr.
  set (c := n / 1461) in *. set (r := n mod 1461) in *.
  rewrite (Z.rem_mod_nonneg r 365) by lia.
  assert (Hq : 0 <= r / 365 <= 4).
  { split; [apply Z.div_pos; lia | apply Z.div_le_upper_bound; lia]. }
  pose proof (Z.div_mod r 365 ltac:(lia)) as Hdm.
  pose proof (Z.mod_pos_bound r 365 ltac:(lia)) as Hd.
  set (q := r / 365) in *. set (d := r mod 365) in *.
  destruct (Z.eqb_spec r 1460) as [E | E]; cbn [negb Year Month Day].
  - assert (q = 4) as -> by lia.
    assert (L : isEthiopianLeapYear (c * 4 + 4 - 1) = true).
    { rewrite isEthiopianLeapYear_nonneg by lia. apply Z.eqb_eq.
      symmetry. apply Z.mod_unique with (q := c); lia. }
    unfold getEthiopianMonthLength, ETHIOPIAN_LEAP_YEAR_DAYS. rewrite L.
    change (13 =? 13) with true. cbv iota. lia.
  - assert (q <= 3) by lia.
    rewrite (Z.rem_mod_nonneg d 30) by lia.
    pose proof (Z.div_mod d 30 ltac:(lia)) as Hdm'.
    pose proof (Z.mod_pos_bound d 30 ltac:(lia)) as Hd'.
    assert (Hm : 0 <= d / 30 <= 12).
    { split; [apply Z.div_pos; lia | ].
      enough (d / 30 < 13) by lia. apply Z.div_lt_upper_bound; lia. }
    split; [lia | split; [lia | ]].
    destruct (getEthiopianMonthLength_cases (d / 30 + 1) (c * 4 + q))
      as [(M & _ & L) | [(M & _ & L) | (_ & L)]]; rewrite L; lia.
Qed.

Lemma createEthiopianDate_negative_year (n : Z) :
  n < 0 -> Year (createEthiopianDate n) < 0.
Proof.
  intros Hn. unfold createEthiopianDate.
  destruct (Z.eqb_spec (Z.rem n 1461) 1460); cbn [negb Year];
    Z.to_euclidean_division_equations; lia.
Qed.

(** X3.  createEthiopianDate returns a date of the calendar (Year >= 0,
    Month in 1..13, Day within the month) exactly on the day numbers
    n >= 0, and on those getDayNumber gives n back; on a negative day
    number the Year it returns is negative. *)
Theorem createEthiopianDate_decodes (n : Z) :
  (wellFormedEt (createEthiopianDate n) <-> 0 <= n) /\
  (0 <= n -> getDayNumber (createEthiopianDate n) = n) /\
  (n < 0 -> Year (createEthiopianDate n) < 0).
Proof.
  split; [split | split].
  - intros (Hy & _). destruct (Z.lt_ge_cases n 0) as [L | L]; [ | lia].
    pose proof (createEthiopianDate_negative_year n L). lia.
  - apply createEthiopianDate_wellFormed.
  - apply getDayNumber_createEthiopianDate.
  - apply createEthiopianDate_negative_year.
Qed.

Lemma createEthiopianDate_decodes_witness :
  (0 <= 737018 /\ -1 < 0) /\
  getDayNumber (createEthiopianDate 737018) = 737018 /\
  Year (createEthiopianDate (-1)) < 0.
Proof.
  split; [lia | ]. split.
  - exact (proj1 (proj2 (createEthiopianDate_decodes 737018)) ltac:(lia)).
  - exact (proj2 (proj2 (createEthiopianDate_decodes (-1))) ltac:(lia)).
Defined.


(** ** Adding days *)

Lemma nextDay_spec (e : EtDate) :
  wellFormedEt e ->
  wellFormedEt (nextDay e) /\ getDayNumber (nextDay e) = getDayNumber e + 1.
Proof.
  intros (Hy & Hm & Hd). unfold nextDay.
  destruct (Z.ltb_spec (Day e) (getEthiopianMonthLength (Month e) (Year e)))
    as [L | L].
  - split.
    + unfold wellFormedEt; cbn [Year Month Day]. lia.
    + unfold getDayNumber; cbn [Year Month Day]. lia.
  - destruct (Z.ltb_spec (Month e) 13) as [M | M].
    + destruct (getEthiopianMonthLength_cases (Month e) (Year e))
        as [(M' & _) | [(M' & _) | (_ & E)]]; try lia.
      split.
      * unfold wellFormedEt; cbn [Year Month Day].
        destruct (getEthiopianMonthLength_cases (Month e + 1) (Year e))
          as [(_ & _ & E') | [(_ & _ & E') | (_ & E')]]; rewrite E'; lia.
      * unfold getDayNumber, ETHIOPIAN_DAYS_IN_MONTH; cbn [Year Month Day].
        lia.
    + assert (M13 : Month e = 13) by lia.
      split.
      * unfold wellFormedEt; cbn [Year Month Day].
        change (getEthiopianMonthLength 1 (Year e + 1)) with 30. lia.
      * unfold getDayNumber, ETHIOPIAN_DAYS_IN_MONTH; cbn [Year Month Day].
        rewrite !Z.rem_mod_nonneg by lia.
        destruct (getEthiopianMonthLength_cases (Month e) (Year e))
          as [(_ & Lp & E) | [(_ & Lp & E) | (M' & _)]]; try lia;
          rewrite isEthiopianLeapYear_nonneg in Lp by lia;
          destruct (Z.eqb_spec (Year e mod 4) 3); try discriminate;
          Z.div_mod_to_equations; lia.
Qed.

Lemma createEthiopianDate_next (e : EtDate) :
  wellFormedEt e -> createEthiopianDate (getDayNumber e + 1) = nextDay e.
Proof.
  intros W. destruct (nextDay_spec e W) as (W' & E).
  rewrite <- E. now apply createEthiopianDate_getDayNumber.
Qed.

(** X4.  On a valid date addDaysToEthiopianDate with 0 days returns the
    day after it: the next day of the month; after the last day of a
    month the first day of the next month; after the last day of month
    13 (day 6 in a leap year, day 5 otherwise) day 1 of month 1 of the
    next year. *)
Theorem addDaysToEthiopianDate_zero_is_next_day (e : EtDate) :
  isValidEthiopianDate e = true ->
  addDaysToEthiopianDate e 0 = Returns (nextDay e).
Proof.
  intros V. unfold addDaysToEthiopianDate. rewrite V. cbn [negb].
  rewrite Z.add_0_r. f_equal.
  apply createEthiopianDate_next. now apply isValidEthiopianDate_wellFormed.
Qed.

Lemma addDaysToEthiopianDate_zero_is_next_day_witness :
  isValidEthiopianDate (new_EthiopianDate 5 13 2016) = true /\
  addDaysToEthiopianDate (new_EthiopianDate 5 13 2016) 0
  = Returns (new_EthiopianDate 1 1 2017).
Proof.
  split; [reflexivity | ].
  exact (addDaysToEthiopianDate_zero_is_next_day
           (new_EthiopianDate 5 13 2016) eq_refl).
Defined.

(** X5.  On a valid date e, with a number of days n that does not lead
    before day number 0, addDaysToEthiopianDate returns a date of the
    calendar whose day number is that of e plus n + 1.  So the result
    is after e exactly when n >= 0, and is e itself exactly when
    n = -1. *)
Theorem addDaysToEthiopianDate_day_number (e : EtDate) (n : Z) :
  isValidEthiopianDate e = true ->
  0 <= getDayNumber e + 1 + n ->
  exists r : EthiopianDate,
    addDaysToEthiopianDate e n = Returns r /\
    wellFormedEt r /\
    getDayNumber r = getDayNumber e + n + 1 /\
    (compareEthiopianDates e r < 0 <-> 0 <= n) /\
    (r = e <-> n = -1).
Proof.
  intros V Hn. pose proof (isValidEthiopianDate_wellFormed e V) as W.
  unfold addDaysToEthiopianDate. rewrite V. cbn [negb].
  exists (createEthiopianDate (getDayNumber e + 1 + n)).
  pose proof (createEthiopianDate_wellFormed _ Hn) as W'.
  pose proof (getDayNumber_createEthiopianDate _ Hn) as E.
  repeat (split; [first [reflexivity | assumption | lia] | ]).
  destruct (compareEthiopianDates_day_numbers e _ W W') as (Lt & _).
  split; [rewrite Lt; lia | ].
  split.
  - intros R. rewrite R in E. lia.
  - intros ->. replace (getDayNumber e + 1 + -1) with (getDayNumber e) by lia.
    now apply createEthiopianDate_getDayNumber.
Qed.

Lemma addDaysToEthiopianDate_day_number_witness :
  let e := new_EthiopianDate 11 7 2018 in
  (isValidEthiopianDate e = true /\ 0 <= getDayNumber e + 1 + 30) /\
  exists r : EthiopianDate,
    addDaysToEthiopianDate e 30 = Returns r /\
    wellFormedEt r /\
    getDayNumber r = getDayNumber e + 30 + 1 /\
    (compareEthiopianDates e r < 0 <-> 0 <= 30) /\
    (r = e <-> 30 = -1).
Proof.
  cbv zeta.
  assert (H : 0 <= getDayNumber (new_EthiopianDate 11 7 2018) + 1 + 30)
    by (vm_compute; discriminate).
  split; [split; [reflexivity | exact H] | ].
  exact (addDaysToEthiopianDate_day_number
           (new_EthiopianDate 11 7 2018) 30 eq_refl H).
Defined.

(** ** Adding years *)

Lemma addYearsToEthiopianDate_result_valid (e : EtDate) (n : Z) :
  isValidEthiopianDate e = true ->
  1000 <= Year e + n <= 3000 ->
  exists r : EthiopianDate,
    addYearsToEthiopianDate e n = Returns r /\
    isValidEthiopianDate r = true /\
    Year r = Year e + n /\
    ((Month e = 13 /\ Day e = 6 /\ isEthiopianLeapYear (Year e + n) = false /\
      r = new_EthiopianDate 5 13 (Year e + n)) \/
     (~ (Month e = 13 /\ Day e = 6 /\
         isEthiopianLeapYear (Year e + n) = false) /\
      r = new_EthiopianDate (Day e) (Month e) (Year e + n))).
Proof.
  intros V Hy. rewrite (addYearsToEthiopianDate_returns e n V).
  apply isValidEthiopianDate_spec in V. destruct V as (Vy & Vm & Vd).
  destruct (Z.eqb_spec (Month e) 13) as [M | M];
    destruct (Z.eqb_spec (Day e) 6) as [D | D];
    destruct (isEthiopianLeapYear (Year e + n)) eqn:L; cbn [andb negb];
    eexists; (split; [reflexivity | ]);
    (split; [apply isValidEthiopianDate_spec; cbn [Year Month Day] | ]);
    try (split; [reflexivity | ]);
    try (right; split; [intros (? & ? & ?); congruence | reflexivity]);
    try (left; auto);
    unfold getEthiopianMonthLength in *; try rewrite L;
    repeat match goal with
           | H : context [if ?b then _ else _] |- _ => destruct b eqn:?
           | |- context [if ?b then _ else _] => destruct b eqn:?
           end;
    unfold ETHIOPIAN_LEAP_YEAR_DAYS, ETHIOPIAN_NORMAL_YEAR_DAYS,
      ETHIOPIAN_DAYS_IN_MONTH in *; try lia.
Qed.

(** X6.  On a valid date addYearsToEthiopianDate with 0 years returns
    the date itself.  Adding n years and then -n years, when e.Year + n
    lies in 1000..3000, returns the date itself too, except that day 6
    of month 13 comes back as day 5 of month 13 when the year in
    between is not a leap year. *)
Theorem addYearsToEthiopianDate_there_and_back (e : EtDate) (n : Z) :
  isValidEthiopianDate e = true ->
  addYearsToEthiopianDate e 0 = Returns e /\
  (1000 <= Year e + n <= 3000 ->
   andThen (addYearsToEthiopianDate e n)
     (fun r => addYearsToEthiopianDate r (- n))
   = Returns
       (if (Month e =? 13) && (Day e =? 6)
           && negb (isEthiopianLeapYear (Year e + n))
        then new_EthiopianDate 5 13 (Year e)
        else e)).
Proof.
  intros V.
  assert (L6 : Month e = 13 -> Day e = 6 -> isEthiopianLeapYear (Year e) = true).
  { intros M D. apply isValidEthiopianDate_spec in V.
    destruct V as (_ & _ & Vd). rewrite M, D in Vd.
    unfold getEthiopianMonthLength in Vd. change (13 =? 13) with true in Vd.
    destruct (isEthiopianLeapYear (Year e)); [reflexivity | ].
    unfold ETHIOPIAN_NORMAL_YEAR_DAYS in Vd. lia. }
  split.
  - rewrite (addYearsToEthiopianDate_returns e 0 V), Z.add_0_r.
    destruct (Z.eqb_spec (Month e) 13) as [M | M];
      destruct (Z.eqb_spec (Day e) 6) as [D | D]; cbn [andb];
      try rewrite (L6 M D); cbn [negb]; now destruct e.
  - intros Hy.
    destruct (addYearsToEthiopianDate_result_valid e n V Hy)
      as (r & E & Vr & Yr & [(M & D & Lp & ->) | (N & ->)]);
      rewrite E; cbn [andThen];
      rewrite (addYearsToEthiopianDate_returns _ (- n) Vr);
      cbn [Year Month Day].
    + rewrite M, D, Lp. cbn. f_equal. f_equal. lia.
    + replace (Year e + n + - n) with (Year e) by lia.
      destruct (Z.eqb_spec (Month e) 13) as [M | M];
        destruct (Z.eqb_spec (Day e) 6) as [D | D]; cbn [andb];
        try rewrite (L6 M D); cbn [negb];
        try (now destruct e).
      destruct (isEthiopianLeapYear (Year e + n)) eqn:Lp; cbn [negb].
      * now destruct e.
      * exfalso. apply N. auto.
Qed.

Lemma addYearsToEthiopianDate_there_and_back_witness :
  let e := new_EthiopianDate 6 13 2019 in
  (isValidEthiopianDate e = true /\ 1000 <= Year e + 1 <= 3000) /\
  addYearsToEthiopianDate e 0 = Returns e /\
  andThen (addYearsToEthiopianDate e 1)
    (fun r => addYearsToEthiopianDate r (- (1)))
  = Returns (new_EthiopianDate 5 13 2019).
Proof.
  cbv zeta.
  assert (H : 1000 <= Year (new_EthiopianDate 6 13 2019) + 1 <= 3000)
    by (cbn; lia).
  split; [split; [reflexivity | exact H] | ].
  pose proof (addYearsToEthiopianDate_there_and_back
                (new_EthiopianDate 6 13 2019) 1 eq_refl) as (A & B).
  split; [exact A | exact (B H)].
Defined.

(** ** Gregorian years and day numbers *)

Lemma getGregorianDayNumber_january_1 (y : Z) :
  getGregorianDayNumber (mkDate y 0 1) = daysBeforeYear y + 1.
Proof.
  change (mkDate y 0 1) with (mkDate y (1 - 1) 1).
  rewrite getGregorianDayNumber_mkDate. unfold dayNumberOf.
  rewrite addGregorianMonths_table by lia.
  change (DaysBeforeMonth (1 - 1) (isLeapYearGr y)) with 0. lia.
Qed.

(** X7.  For a year y >= 0 the lengths of the months 1..12 add up to
    the distance between the day numbers of January 1 of the years y and
    y + 1: 366 days when isLeapYearGr holds of y and 365 otherwise. *)
Theorem gregorian_year_length (y : Z) :
  0 <= y ->
  let monthLengths :=
    map (fun m => getGregorianMonthLength (Z.of_nat m) y) (seq 1 12) in
  fold_right Z.add 0 monthLengths
  = getGregorianDayNumber (mkDate (y + 1) 0 1)
    - getGregorianDayNumber (mkDate y 0 1) /\
  fold_right Z.add 0 monthLengths = if isLeapYearGr y then 366 else 365.
Proof.
  intros H monthLengths.
  assert (S : fold_right Z.add 0 monthLengths = yearLength y).
  { subst monthLengths. unfold yearLength.
    cbn [seq map fold_right Z.of_nat Pos.of_succ_nat Pos.succ].
    rewrite !getGregorianMonthLength_leap.
    destruct (isLeapYearGr y); reflexivity. }
  split; [ | exact S].
  rewrite S, !getGregorianDayNumber_january_1, daysBeforeYear_succ by lia.
  lia.
Qed.

Lemma gregorian_year_length_witness :
  0 <= 2024 /\
  fold_right Z.add 0
    (map (fun m => getGregorianMonthLength (Z.of_nat m) 2024) (seq 1 12))
  = 366.
Proof.
  split; [lia | ].
  exact (proj2 (gregorian_year_length 2024 ltac:(lia))).
Defined.

(** X8.  gregorianDateFromDayNo returns on every integer, negative
    ones included: its month loop stops within the twelve months of the
    year, and the Date is built from a month in 1..12 and a day of that
    month. *)
Theorem gregorianDateFromDayNo_month_loop_stops (n : Z) :
  exists year month day : Z,
    gregorianDateFromDayNo n = Some (new_Date year (month - 1) day) /\
    1 <= month <= 12 /\ 1 <= day <= getGregorianMonthLength month year.
Proof. exact (gregorianDateFromDayNo_wellformed n). Qed.

Lemma daysBeforeYear_100 : daysBeforeYear 100 = 36159.
Proof. reflexivity. Qed.

Lemma gregorianDateFromDayNo_from_year_100 (n : Z) :
  36159 < n ->
  exists y m d : Z,
    gregorianDateFromDayNo n = Some (mkDate y (m - 1) d) /\
    100 <= y /\ 1 <= m <= 12 /\ 1 <= d <= getGregorianMonthLength m y /\
    dayNumberOf y m d = n.
Proof.
  intros Hn.
  destruct (gregorianDateFromDayNo_decodes n ltac:(lia))
    as (y & m & d & E & Hy & Hm & Hd & En).
  assert (100 <= y) as Hy100.
  { pose proof (dayNumberOf_bounds y m d ltac:(lia) Hm Hd) as B.
    destruct (Z.le_gt_cases (y + 1) 100) as [L | L]; [ | lia].
    pose proof (daysBeforeYear_monotone (y + 1) 100 ltac:(lia)).
    rewrite daysBeforeYear_100 in *. lia. }
  rewrite new_Date_year_100 in E by assumption.
  exists y, m, d. auto.
Qed.

(** X9.  From year 100 on the decoder and the encoder of Gregorian day
    numbers are inverse to each other: a day number above 36159 (the
    days of the years 1..99) decodes to a calendar day of a year
    from 100 on that encodes back to it, and a calendar day of such a
    year encodes to a day number above 36159 that decodes back to it. *)
Theorem gregorian_day_number_round_trips (n : Z) (g : Date) :
  (36159 < n ->
   exists g' : Date,
     gregorianDateFromDayNo n = Some g' /\
     isGregorianCalendarDay g' /\ 100 <= getFullYear g' /\
     getGregorianDayNumber g' = n) /\
  (isGregorianCalendarDay g -> 100 <= getFullYear g ->
   36159 < getGregorianDayNumber g /\
   gregorianDateFromDayNo (getGregorianDayNumber g) = Some g).
Proof.
  split.
  - intros Hn.
    destruct (gregorianDateFromDayNo_from_year_100 n Hn)
      as (y & m & d & E & Hy & Hm & Hd & En).
    exists (mkDate y (m - 1) d). split; [assumption | ].
    rewrite getGregorianDayNumber_mkDate.
    unfold isGregorianCalendarDay; cbn [getFullYear getMonth getDate].
    replace (m - 1 + 1) with m by lia. repeat split; lia.
  - intros G Hy.
    split; [ | now apply gregorianDateFromDayNo_getGregorianDayNumber].
    destruct g as [y mi d]. destruct G as (Hm & Hd).
    cbn [getFullYear getMonth getDate] in *.
    replace mi with (mi + 1 - 1) at 1 by lia.
    rewrite getGregorianDayNumber_mkDate.
    pose proof (dayNumberOf_bounds y (mi + 1) d ltac:(lia) ltac:(lia) Hd).
    pose proof (daysBeforeYear_monotone 100 y ltac:(lia)).
    rewrite daysBeforeYear_100 in *. lia.
Qed.

Lemma gregorian_day_number_round_trips_witness :
  let g := mkDate 2025 6 17 in
  (36159 < 739449 /\ isGregorianCalendarDay g /\ 100 <= getFullYear g) /\
  (exists g' : Date,
     gregorianDateFromDayNo 739449 = Some g' /\
     isGregorianCalendarDay g' /\ 100 <= getFullYear g' /\
     getGregorianDayNumber g' = 739449) /\
  36159 < getGregorianDayNumber g /\
  gregorianDateFromDayNo (getGregorianDayNumber g) = Some g.
Proof.
  cbv zeta.
  assert (G : isGregorianCalendarDay (mkDate 2025 6 17))
    by (unfold isGregorianCalendarDay; cbn; lia).
  assert (Y : 100 <= getFullYear (mkDate 2025 6 17)) by (cbn; lia).
  split; [split; [lia | split; assumption] | ].
  pose proof (gregorian_day_number_round_trips 739449 (mkDate 2025 6 17))
    as (A & B).
  split; [exact (A ltac:(lia)) | exact (B G Y)].
Defined.

Lemma isLeapYearGr_plus_1900 (y : Z) :
  1 <= y <= 99 -> isLeapYearGr (1900 + y) = isLeapYearGr y.
Proof.
  intros H. rewrite !isLeapYearGr_mod by lia.
  destruct (Z.eqb_spec ((1900 + y) mod 4) 0),
    (Z.eqb_spec ((1900 + y) mod 100) 0),
    (Z.eqb_spec ((1900 + y) mod 400) 0),
    (Z.eqb_spec (y mod 4) 0), (Z.eqb_spec (y mod 100) 0),
    (Z.eqb_spec (y mod 400) 0); cbn [andb orb negb]; try reflexivity;
    exfalso; Z.div_mod_to_equations; lia.
Qed.

Lemma daysBeforeYear_plus_1900 (y : Z) :
  1 <= y <= 99 -> daysBeforeYear (1900 + y) = daysBeforeYear y + 693960.
Proof. intros H. unfold daysBeforeYear. Z.div_mod_to_equations. lia. Qed.

(** X10.  Below year 100 the decoder is 1900 years off: a day number n
    in 1..36159, which belongs to a year y in 1..99, decodes to the same
    month and day of the year 1900 + y, the Date constructor reading the
    year y that way, and so to a date whose day number is
    n + 693960. *)
Theorem gregorianDateFromDayNo_two_digit_years (n : Z) :
  1 <= n <= 36159 ->
  exists g : Date,
    gregorianDateFromDayNo n = Some g /\
    isGregorianCalendarDay g /\
    1901 <= getFullYear g <= 1999 /\
    getGregorianDayNumber g = n + 693960.
Proof.
  intros Hn.
  destruct (gregorianDateFromDayNo_decodes n ltac:(lia))
    as (y & m & d & E & Hy & Hm & Hd & En).
  assert (y <= 99) as Hy99.
  { pose proof (dayNumberOf_bounds y m d ltac:(lia) Hm Hd) as B.
    destruct (Z.le_gt_cases y 99) as [L | L]; [assumption | ].
    pose proof (daysBeforeYear_monotone 100 y ltac:(lia)).
    rewrite daysBeforeYear_100 in *. lia. }
  assert (N : new_Date y (m - 1) d = mkDate (1900 + y) (m - 1) d).
  { unfold new_Date.
    destruct (Z.leb_spec 0 y), (Z.leb_spec y 99); cbn [andb];
      try reflexivity; lia. }
  rewrite N in E. exists (mkDate (1900 + y) (m - 1) d).
  split; [assumption | ].
  rewrite getGregorianDayNumber_mkDate.
  unfold isGregorianCalendarDay, dayNumberOf in *.
  cbn [getFullYear getMonth getDate].
  replace (m - 1 + 1) with m by lia.
  rewrite !addGregorianMonths_table in * by assumption.
  rewrite getGregorianMonthLength_leap in *.
  rewrite isLeapYearGr_plus_1900, daysBeforeYear_plus_1900 by lia.
  repeat split; lia.
Qed.

Lemma gregorianDateFromDayNo_two_digit_years_witness :
  1 <= 2922 <= 36159 /\
  exists g : Date,
    gregorianDateFromDayNo 2922 = Some g /\
    isGregorianCalendarDay g /\
    1901 <= getFullYear g <= 1999 /\
    getGregorianDayNumber g = 2922 + 693960.
Proof.
  split; [lia | ].
  exact (gregorianDateFromDayNo_two_digit_years 2922 ltac:(lia)).
Defined.

(** ** The engine's day numbers and the host's *)

Lemma InLeapYear_isLeapYearGr (y : Z) : InLeapYear y = isLeapYearGr y.
Proof.
  unfold InLeapYear, isLeapYearGr.
  assert (R : forall b, 0 < b -> (Z.rem y b =? 0) = (y mod b =? 0)).
  { intros b Hb.
    destruct (Z.eqb_spec (Z.rem y b) 0), (Z.eqb_spec (y mod b) 0);
      try reflexivity; exfalso;
      Z.to_euclidean_division_equations; nia. }
  rewrite !R by lia.
  destruct (y mod 4 =? 0), (y mod 100 =? 0), (y mod 400 =? 0); reflexivity.
Qed.

Lemma DayFromYear_daysBeforeYear (y : Z) :
  DayFromYear y = daysBeforeYear y - 719162.
Proof.
  unfold DayFromYear, daysBeforeYear. Z.div_mod_to_equations. lia.
Qed.

(** X11.  On a day of the Gregorian calendar, of any year, the engine's
    day number is the host's count of days since 1 January 1970 plus
    719163, and its remainder modulo 7 is the weekday of the day
    (Sunday = 0). *)
Theorem getGregorianDayNumber_is_host_day (g : Date) :
  isGregorianCalendarDay g ->
  getGregorianDayNumber g = MakeDay g + 719163 /\
  getDay g = getGregorianDayNumber g mod 7.
Proof.
  intros (Hm & Hd).
  assert (E : getGregorianDayNumber g = MakeDay g + 719163).
  { destruct g as [y mi d]. cbn [getFullYear getMonth getDate] in *.
    replace mi with (mi + 1 - 1) at 1 by lia.
    rewrite getGregorianDayNumber_mkDate. unfold dayNumberOf, MakeDay.
    cbn [getFullYear getMonth getDate].
    rewrite addGregorianMonths_table by lia.
    rewrite InLeapYear_isLeapYearGr, DayFromYear_daysBeforeYear.
    replace (mi + 1 - 1) with mi by lia. lia. }
  split; [exact E | ].
  unfold getDay, WeekDay. rewrite E.
  Z.div_mod_to_equations. lia.
Qed.

Lemma getGregorianDayNumber_is_host_day_witness :
  isGregorianCalendarDay (mkDate 1970 0 1) /\
  getGregorianDayNumber (mkDate 1970 0 1) = MakeDay (mkDate 1970 0 1) + 719163 /\
  getDay (mkDate 1970 0 1) = getGregorianDayNumber (mkDate 1970 0 1) mod 7.
Proof.
  assert (G : isGregorianCalendarDay (mkDate 1970 0 1))
    by (unfold isGregorianCalendarDay; cbn; lia).
  split; [exact G | ].
  exact (getGregorianDayNumber_is_host_day (mkDate 1970 0 1) G).
Defined.

(** X12.  No two days of the Gregorian calendar, of years from 0 on,
    have the same day number. *)
Theorem getGregorianDayNumber_injective (g g' : Date) :
  isGregorianCalendarDay g -> isGregorianCalendarDay g' ->
  0 <= getFullYear g -> 0 <= getFullYear g' ->
  getGregorianDayNumber g = getGregorianDayNumber g' ->
  g = g'.
Proof.
  destruct g as [y mi d], g' as [y' mi' d'].
  unfold isGregorianCalendarDay; cbn [getFullYear getMonth getDate].
  intros (Hm & Hd) (Hm' & Hd') Hy Hy' E.
  replace mi with (mi + 1 - 1) in E at 1 by lia.
  replace mi' with (mi' + 1 - 1) in E at 1 by lia.
  rewrite !getGregorianDayNumber_mkDate in E.
  destruct (dayNumberOf_injective y (mi + 1) d y' (mi' + 1) d')
    as (-> & M & ->); try assumption; try lia.
  f_equal. lia.
Qed.

Lemma getGregorianDayNumber_injective_witness :
  let g := mkDate 2024 1 29 in
  (isGregorianCalendarDay g /\ 0 <= getFullYear g /\
   getGregorianDayNumber g = getGregorianDayNumber g) /\
  g = g.
Proof.
  cbv zeta.
  assert (G : isGregorianCalendarDay (mkDate 2024 1 29))
    by (unfold isGregorianCalendarDay; vm_compute; intuition discriminate).
  assert (Y : 0 <= getFullYear (mkDate 2024 1 29)) by (cbn; lia).
  split; [auto | ].
  exact (getGregorianDayNumber_injective
           (mkDate 2024 1 29) (mkDate 2024 1 29) G G Y Y eq_refl).
Defined.

(** ** The conversions outside the validator's years *)

(** X13.  toEthiopian returns a date of the Ethiopian calendar exactly
    when the day number of its argument is at least 2431, the offset
    between the two counts; the Ethiopian day number of the result is
    then the Gregorian day number minus 2431.  Below that the Year it
    returns is negative. *)
Theorem toEthiopian_wellFormed_iff (g : Date) :
  (wellFormedEt (toEthiopian g) <-> 2431 <= getGregorianDayNumber g) /\
  (2431 <= getGregorianDayNumber g ->
   getDayNumber (toEthiopian g) = getGregorianDayNumber g - 2431) /\
  (getGregorianDayNumber g < 2431 -> Year (toEthiopian g) < 0).
Proof.
  unfold toEthiopian, ETHIOPIAN_CALENDAR_OFFSET.
  split; [split | split]; intros H.
  - destruct H as (Hy & _).
    destruct (Z.lt_ge_cases (getGregorianDayNumber g - 2431) 0) as [L | L];
      [ | lia].
    pose proof (createEthiopianDate_negative_year _ L). lia.
  - apply createEthiopianDate_wellFormed. lia.
  - apply getDayNumber_createEthiopianDate. lia.
  - apply createEthiopianDate_negative_year. lia.
Qed.

Lemma toEthiopian_wellFormed_iff_witness :
  let g := mkDate 2025 6 17 in
  2431 <= getGregorianDayNumber g /\
  getDayNumber (toEthiopian g) = getGregorianDayNumber g - 2431.
Proof.
  cbv zeta.
  assert (H : 2431 <= getGregorianDayNumber (mkDate 2025 6 17))
    by (vm_compute; discriminate).
  split; [exact H | ].
  exact (proj1 (proj2 (toEthiopian_wellFormed_iff (mkDate 2025 6 17))) H).
Defined.

(** X14.  The round trip through toGregorian holds well outside the
    years the validator accepts: for every date of the Ethiopian
    calendar from year 93 on, toGregorian returns a day of the
    Gregorian calendar from which toEthiopian gives the date back. *)
Theorem toEthiopian_toGregorian_from_year_93 (e : EtDate) :
  wellFormedEt e -> 93 <= Year e ->
  exists g : Date,
    toGregorian e = Some g /\ isGregorianCalendarDay g /\
    100 <= getFullYear g /\ toEthiopian g = e.
Proof.
  intros W Hy.
  assert (Hn : 33968 <= getDayNumber e).
  { pose proof (getDayNumber_year_start e W) as (H & _). cbv zeta in H.
    revert H. Z.div_mod_to_equations. lia. }
  unfold toGregorian, toEthiopian, ETHIOPIAN_CALENDAR_OFFSET.
  destruct (gregorianDateFromDayNo_from_year_100 (getDayNumber e + 2431))
    as (y & m & d & E & Hy100 & Hm & Hd & En); [lia | ].
  exists (mkDate y (m - 1) d). split; [assumption | ].
  rewrite getGregorianDayNumber_mkDate, En.
  unfold isGregorianCalendarDay; cbn [getFullYear getMonth getDate].
  replace (m - 1 + 1) with m by lia.
  replace (getDayNumber e + 2431 - 2431) with (getDayNumber e) by lia.
  repeat split; try lia.
  now apply createEthiopianDate_getDayNumber.
Qed.

Lemma toEthiopian_toGregorian_from_year_93_witness :
  let e := new_EthiopianDate 30 12 93 in
  (wellFormedEt e /\ 93 <= Year e) /\
  exists g : Date,
    toGregorian e = Some g /\ isGregorianCalendarDay g /\
    100 <= getFullYear g /\ toEthiopian g = e.
Proof.
  cbv zeta.
  assert (W : wellFormedEt (new_EthiopianDate 30 12 93))
    by (unfold wellFormedEt; vm_compute; intuition discriminate).
  assert (Y : 93 <= Year (new_EthiopianDate 30 12 93)) by (cbn; lia).
  split; [split; assumption | ].
  exact (toEthiopian_toGregorian_from_year_93
           (new_EthiopianDate 30 12 93) W Y).
Defined.

(** ** The first weekday of a month, on either kind of host *)

(** X15.  getMonthStartDay returns on every month and year, also
    unchecked ones.  With g the Date that toGregorian returns for day 1
    of the month: on a host ahead of UTC the result is the
    Monday = 1 .. Sunday = 7 number of the weekday of g; on any other
    host it is one more than its Sunday = 0 .. Saturday = 6 number,
    that is Sunday = 1 .. Saturday = 7. *)
Theorem getMonthStartDay_on_either_host (month year : Z) :
  exists g : Date,
    toGregorian (new_EthiopianDate 1 month year) = Some g /\
    getMonthStartDay true month year = Some (mondayFirst (getDay g)) /\
    getMonthStartDay false month year = Some (getDay g + 1) /\
    0 <= getDay g <= 6.
Proof.
  destruct (getMonthStartDay_ahead_of_UTC month year) as (g & E & A).
  destruct (getMonthStartDay_not_ahead_of_UTC month year)
    as (g' & E' & B & _).
  assert (g' = g) as -> by congruence.
  exists g. repeat split; try assumption;
    unfold getDay, WeekDay; Z.div_mod_to_equations; lia.
Qed.

(** ** Strings *)

Lemma hasChar_app (c : ascii) (s t : string) :
  hasChar c (s ++ t) = hasChar c s || hasChar c t.
Proof.
  induction s as [ | a s IH]; simpl; [reflexivity | ].
  now rewrite IH, orb_assoc.
Qed.

Lemma prefix_absent (c : ascii) (p s : string) :
  hasChar c s = false -> String.prefix (String c p) s = false.
Proof.
  destruct s as [ | a s]; simpl; [reflexivity | ].
  intros H. apply orb_false_iff in H. destruct H as (H & _).
  destruct (ascii_dec c a) as [-> | N]; [ | reflexivity].
  now rewrite Ascii.eqb_refl in H.
Qed.

(** A search string whose first character does not occur in [s] is not
    found before the end of [s]. *)
Lemma replace_absent_app (c : ascii) (p r s t : string) :
  hasChar c s = false ->
  replace (String c p) r (s ++ t) = (s ++ replace (String c p) r t)%string.
Proof.
  induction s as [ | a s IH]; intros H; [reflexivity | ].
  cbn [hasChar] in H. apply orb_false_iff in H. destruct H as (Ha & Hs).
  cbn [append replace].
  assert (P : String.prefix (String c p) (String a (s ++ t)) = false).
  { simpl. destruct (ascii_dec c a) as [-> | N]; [ | reflexivity].
    now rewrite Ascii.eqb_refl in Ha. }
  rewrite P. f_equal. now apply IH.
Qed.

Lemma replace_absent (c : ascii) (p r s : string) :
  hasChar c s = false -> replace (String c p) r s = s.
Proof.
  intros H. rewrite <- (append_empty_r s) at 1.
  rewrite replace_absent_app by assumption.
  cbn [replace String.prefix]. apply append_empty_r.
Qed.

Lemma replace_found (p r s : string) :
  String.prefix p s = true ->
  replace p r s = (r ++ drop (String.length p) s)%string.
Proof. intros H. destruct s; cbn [replace]; now rewrite H. Qed.

Lemma replace_skip (p r : string) (a : ascii) (s : string) :
  String.prefix p (String a s) = false ->
  replace p r (String a s) = String a (replace p r s).
Proof. intros H. cbn [replace]. now rewrite H. Qed.

Lemma string_of_uint_chars (c : ascii) (u : Decimal.uint) :
  hasChar c "0123456789" = false ->
  hasChar c (NilEmpty.string_of_uint u) = false.
Proof.
  intros H. cbn [hasChar] in H. rewrite !orb_false_iff in H.
  induction u; cbn [NilEmpty.string_of_uint hasChar];
    rewrite ?orb_false_iff; intuition.
Qed.

(** The rendering of an integer holds digits and, in front of them, a
    minus sign; nothing else. *)
Lemma show_chars (c : ascii) (n : Z) :
  hasChar c "-0123456789" = false -> hasChar c (show n) = false.
Proof.
  intros H. cbn [hasChar] in H. apply orb_false_iff in H.
  destruct H as (Hm & Hd). fold (hasChar c "0123456789") in Hd.
  unfold show, NilZero.string_of_int.
  destruct (Z.to_int n) as [u | u]; cbn [hasChar];
    unfold NilZero.string_of_uint;
    try rewrite Hm; cbn [orb];
    (destruct u;
     [ cbn [hasChar] in Hd |- *; rewrite !orb_false_iff in Hd;
       rewrite orb_false_iff; intuition
     | apply string_of_uint_chars; exact Hd .. ]).
Qed.

Lemma padStart2_chars (c : ascii) (s : string) :
  hasChar c "0" = false -> hasChar c s = false ->
  hasChar c (padStart2 s) = false.
Proof.
  intros H0 Hs. unfold padStart2.
  destruct s as [ | a [ | b s]]; cbn [String.length]; try assumption.
  - cbn [hasChar] in *. rewrite orb_false_iff in H0. destruct H0 as (-> & _).
    reflexivity.
  - cbn [hasChar] in *. rewrite orb_false_iff in H0. destruct H0 as (-> & _).
    assumption.
Qed.

(** ** Names of months and days *)

Lemma month_in_1_13 (m : Z) :
  1 <= m <= 13 ->
  m = 1 \/ m = 2 \/ m = 3 \/ m = 4 \/ m = 5 \/ m = 6 \/ m = 7 \/ m = 8 \/
  m = 9 \/ m = 10 \/ m = 11 \/ m = 12 \/ m = 13.
Proof. lia. Qed.

Lemma getEthiopianMonthName_in_range (m : Z) (locale : DateType) :
  1 <= m <= 13 ->
  exists name : string,
    getEthiopianMonthName m locale = Some name /\ name <> ""%string /\
    match locale with
    | AMH => at_index ETHIOPIAN_MONTHS (m - 1)
    | EN => englishMonthOf m
    end = Some name.
Proof.
  intros H. apply month_in_1_13 in H.
  destruct H as [-> | [-> | [-> | [-> | [-> | [-> | [-> | [-> | [-> | [-> |
                [-> | [-> | ->]]]]]]]]]]]];
    destruct locale; eexists;
    (split; [vm_compute; reflexivity | split; [discriminate | reflexivity]]).
Qed.

(** X16.  For a month in 1..13 getEthiopianMonthName returns a name
    that is not empty: in Amharic the entry of ETHIOPIAN_MONTHS, and in
    English the entry of ENGLISH_MONTHS that the table gregorianMonthMap
    of format and toDateString selects, so the two ways of naming a
    month in English agree, and toDateString shows that name.  For any
    other month number getEthiopianMonthName returns the empty
    string. *)
Theorem getEthiopianMonthName_agrees_with_toDateString
    (year month day : Z) (locale : DateType) :
  (1 <= month <= 13 ->
   exists name : string,
     getEthiopianMonthName month locale = Some name /\
     name <> ""%string /\
     In name (match locale with
              | AMH => ETHIOPIAN_MONTHS
              | EN => ENGLISH_MONTHS
              end) /\
     EthiopianDateConverter_toDateString
       (dateConverter_fromParts year month day) locale
     = (name ++ " " ++ show day ++ ", " ++ show year)%string) /\
  (~ 1 <= month <= 13 ->
   getEthiopianMonthName month locale = Some ""%string).
Proof.
  split.
  - intros H.
    destruct (getEthiopianMonthName_in_range month locale H)
      as (name & E & N & T).
    exists name. split; [assumption | split; [assumption | split]].
    + destruct locale.
      * unfold englishMonthOf in T.
        destruct (at_index gregorianMonthMap (month - 1)) as [i | ];
          [ | discriminate].
        unfold at_index in T. destruct (i <? 0); [discriminate | ].
        now apply nth_error_In in T.
      * unfold at_index in T. destruct (month - 1 <? 0); [discriminate | ].
        now apply nth_error_In in T.
    + unfold EthiopianDateConverter_toDateString, dateConverter_fromParts,
        new_EthiopianDateConverter_ofParts.
      cbn [ethiopianDate Year Month Day].
      destruct locale; rewrite T; reflexivity.
  - intros H. unfold getEthiopianMonthName.
    destruct (Z.gtb_spec month 0), (Z.leb_spec month 13); cbn [andb];
      try reflexivity; lia.
Qed.

Lemma getEthiopianMonthName_agrees_with_toDateString_witness :
  (1 <= 13 <= 13 /\ ~ 1 <= 14 <= 13) /\
  (exists name : string,
     getEthiopianMonthName 13 EN = Some name /\
     name <> ""%string /\
     In name ENGLISH_MONTHS /\
     EthiopianDateConverter_toDateString (dateConverter_fromParts 2016 13 5) EN
     = (name ++ " " ++ show 5 ++ ", " ++ show 2016)%string) /\
  getEthiopianMonthName 14 EN = Some ""%string.
Proof.
  split; [lia | ]. split.
  - exact (proj1 (getEthiopianMonthName_agrees_with_toDateString 2016 13 5 EN)
             ltac:(lia)).
  - exact (proj2 (getEthiopianMonthName_agrees_with_toDateString 2016 14 5 EN)
             ltac:(lia)).
Defined.

Lemma getEthiopianDayName_in_range (n : Z) (locale : DateType) :
  1 <= n <= 7 ->
  exists name : string,
    getEthiopianDayName n locale = Some name /\ name <> ""%string /\
    hasChar "$" name = false /\
    In name (match locale with
             | AMH => ETHIOPIAN_DAYS
             | EN => ENGLISH_DAYS
             end).
Proof.
  intros H.
  assert (n = 1 \/ n = 2 \/ n = 3 \/ n = 4 \/ n = 5 \/ n = 6 \/ n = 7)
    as C by lia.
  destruct C as [-> | [-> | [-> | [-> | [-> | [-> | ->]]]]]];
    destruct locale; eexists;
    (split; [vm_compute; reflexivity | ]);
    (split; [discriminate | ]); (split; [reflexivity | ]); cbn; tauto.
Qed.

(** X17.  The weekday number that getMonthStartDay returns always has a
    name: getEthiopianDayName gives, for every month, year, host and
    locale, an entry of the table of day names of the locale, never the
    empty string; it gives the empty string exactly for the numbers
    outside 1..7. *)
Theorem getMonthStartDay_has_a_name
    (aheadOfUTC : bool) (month year n : Z) (locale : DateType) :
  (exists (startDay : Z) (name : string),
     getMonthStartDay aheadOfUTC month year = Some startDay /\
     getEthiopianDayName startDay locale = Some name /\
     name <> ""%string /\
     In name (match locale with
              | AMH => ETHIOPIAN_DAYS
              | EN => ENGLISH_DAYS
              end)) /\
  (getEthiopianDayName n locale = Some ""%string <-> ~ 1 <= n <= 7).
Proof.
  split.
  - destruct (getMonthStartDay_from_getUTCDay aheadOfUTC month year)
      as (g & _ & R & B).
    destruct (getEthiopianDayName_in_range _ locale B)
      as (name & E & N & _ & I).
    eauto 8.
  - split.
    + intros E H.
      destruct (getEthiopianDayName_in_range n locale H)
        as (name & E' & N & _). congruence.
    + intros H. unfold getEthiopianDayName.
      destruct (Z.geb_spec n 1), (Z.leb_spec n 7); cbn [andb];
        try reflexivity; lia.
Qed.

(** ** The pattern substitution of format *)

(** X18.  format leaves a pattern that holds none of the letters Y, M,
    D, E and d as it is, for every date, locale and host: no token,
    nothing substituted. *)
Theorem format_without_tokens
    (aheadOfUTC : bool) (this : EthiopianDateConverter)
    (pattern : string) (locale : DateType) :
  hasChar "Y" pattern = false -> hasChar "M" pattern = false ->
  hasChar "D" pattern = false -> hasChar "E" pattern = false ->
  hasChar "d" pattern = false ->
  EthiopianDateConverter_format aheadOfUTC this pattern locale = Some pattern.
Proof.
  intros HY HM HD HE Hd. unfold EthiopianDateConverter_format.
  destruct (getMonthStartDay_from_getUTCDay aheadOfUTC
              (Month (ethiopianDate this)) (Year (ethiopianDate this)))
    as (g & _ & -> & _).
  rewrite (replace_absent _ _ _ pattern HY).
  rewrite (replace_absent _ _ _ pattern HM).
  rewrite (replace_absent _ _ _ pattern HM).
  rewrite (replace_absent _ _ _ pattern HD).
  rewrite (replace_absent _ _ _ pattern HD).
  rewrite (replace_absent _ _ _ pattern HE).
  rewrite (replace_absent _ _ _ pattern Hd).
  reflexivity.
Qed.

Lemma format_without_tokens_witness :
  EthiopianDateConverter_format false (dateConverter_fromParts 2018 7 11)
    "2018/07/11" AMH = Some "2018/07/11"%string.
Proof.
  exact (format_without_tokens false (dateConverter_fromParts 2018 7 11)
           "2018/07/11" AMH eq_refl eq_refl eq_refl eq_refl eq_refl).
Defined.

(** Facts that a rendered number holds no letter. *)
Ltac no_letter :=
  first [ assumption
        | reflexivity
        | apply show_chars; reflexivity
        | apply padStart2_chars; [reflexivity | apply show_chars; reflexivity] ].

(** Carries out one [replace] on a string made of literal text and of
    rendered numbers. *)
Ltac run_replace :=
  cbn [append];
  repeat first
    [ rewrite replace_found by reflexivity; cbn [String.length drop append]
    | rewrite replace_skip by reflexivity
    | rewrite replace_absent_app by no_letter
    | rewrite replace_absent by no_letter ];
  rewrite ?append_empty_r; reflexivity.

(** The innermost [replace] of the goal is computed and put in place. *)
Ltac step_replace :=
  match goal with
  | |- context [replace ?p ?r ?s] =>
      lazymatch s with
      | context [replace] => fail
      | _ =>
          let E := fresh "E" in
          eassert (E : replace p r s = _) by run_replace;
          rewrite E; clear E
      end
  end.

Lemma format_MMM_DD_YYYY_AMH
    (aheadOfUTC : bool) (this : EthiopianDateConverter) :
  EthiopianDateConverter_format aheadOfUTC this "MMM DD, YYYY" AMH
  = Some ("መስከረም " ++ padStart2 (show (Day (ethiopianDate this))) ++ ", "
          ++ show (Year (ethiopianDate this)))%string.
Proof.
  unfold EthiopianDateConverter_format.
  destruct (getMonthStartDay_from_getUTCDay aheadOfUTC
              (Month (ethiopianDate this)) (Year (ethiopianDate this)))
    as (g & _ & -> & B).
  f_equal.
  change (interpolate _) with "መስከረም"%string at 2.
  repeat step_replace.
  cbn [append]. reflexivity.
Qed.

Lemma format_MMM_DD_YYYY_EN
    (aheadOfUTC : bool) (year month day : Z) :
  1 <= month <= 13 ->
  EthiopianDateConverter_format aheadOfUTC
    (dateConverter_fromParts year month day) "MMM DD, YYYY" EN
  = Some (if (month =? 4)%Z
          then show day ++ "ecember " ++ padStart2 (show day) ++ ", "
               ++ show year
          else interpolate (englishMonthOf month) ++ " "
               ++ padStart2 (show day) ++ ", " ++ show year)%string.
Proof.
  intros H. apply month_in_1_13 in H.
  unfold EthiopianDateConverter_format, dateConverter_fromParts,
    new_EthiopianDateConverter_ofParts.
  cbn [ethiopianDate Year Month Day].
  destruct (getMonthStartDay_from_getUTCDay aheadOfUTC month year)
    as (g & _ & -> & B).
  f_equal.
  destruct H as [-> | [-> | [-> | [-> | [-> | [-> | [-> | [-> | [-> | [-> |
                [-> | [-> | ->]]]]]]]]]]]];
    repeat match goal with
           | |- context [englishMonthOf ?m] =>
               let v := eval vm_compute in (englishMonthOf m) in
               change (englishMonthOf m) with v
           end;
    cbn [at_index Z.ltb Z.compare Z.to_nat nth_error interpolate Z.eqb Pos.eqb];
    repeat step_replace;
    cbn [append]; reflexivity.
Qed.

(** X19.  format on the pattern "MMM DD, YYYY" of the source's own
    example, for every date and host.  In Amharic the month name put in
    is that of month 1 whatever the month of the date, the name being
    read at index 0 of ETHIOPIAN_MONTHS.  In English, for a month in
    1..13, it is the English month name followed by the padded day and
    the year, except for month 4: its name December begins with the
    letter that the later substitution of "D" looks for, and the result
    begins with the day followed by "ecember". *)
Theorem format_MMM_DD_YYYY (aheadOfUTC : bool) (year month day : Z) :
  EthiopianDateConverter_format aheadOfUTC
    (dateConverter_fromParts year month day) "MMM DD, YYYY" AMH
  = Some ("መስከረም " ++ padStart2 (show day) ++ ", " ++ show year)%string /\
  (1 <= month <= 13 ->
   EthiopianDateConverter_format aheadOfUTC
     (dateConverter_fromParts year month day) "MMM DD, YYYY" EN
   = Some (if (month =? 4)%Z
           then show day ++ "ecember " ++ padStart2 (show day) ++ ", "
                ++ show year
           else interpolate (englishMonthOf month) ++ " "
                ++ padStart2 (show day) ++ ", " ++ show year)%string).
Proof.
  split.
  - apply (format_MMM_DD_YYYY_AMH aheadOfUTC
             (dateConverter_fromParts year month day)).
  - apply format_MMM_DD_YYYY_EN.
Qed.

Lemma format_MMM_DD_YYYY_witness :
  1 <= 4 <= 13 /\
  EthiopianDateConverter_format false (dateConverter_fromParts 2018 4 11)
    "MMM DD, YYYY" EN
  = Some "11ecember 11, 2018"%string.
Proof.
  split; [lia | ].
  exact (proj2 (format_MMM_DD_YYYY false 2018 4 11) ltac:(lia)).
Defined.

(** ** The fluent converter *)

Lemma forallb_wholeNumbers (P : Z -> bool) (first : Z) (count : nat) :
  forallb P (wholeNumbers first count) = true ->
  forall z : Z, first <= z < first + Z.of_nat count -> P z = true.
Proof.
  intros H z Hz. rewrite forallb_forall in H. apply H.
  unfold wholeNumbers. apply in_map_iff.
  exists (Z.to_nat (z - first)). split; [lia | ].
  apply in_seq. lia.
Qed.

Lemma show_year (y : Z) :
  1000 <= y <= 3000 ->
  String.length (show y) = 4%nat /\ readDecimal (show y) = Some y.
Proof.
  intros H.
  pose proof (forallb_wholeNumbers
                (fun z => Nat.eqb (String.length (show z)) 4
                          && match readDecimal (show z) with
                             | Some v => v =? z
                             | None => false
                             end)
                1000 2001 ltac:(vm_compute; reflexivity) y ltac:(lia)) as P.
  cbv beta in P. apply andb_true_iff in P. destruct P as (L & R).
  apply Nat.eqb_eq in L. split; [assumption | ].
  destruct (readDecimal (show y)) as [v | ]; [ | discriminate].
  apply Z.eqb_eq in R. now subst v.
Qed.

Lemma show_padded (m : Z) :
  0 <= m <= 99 ->
  String.length (padStart2 (show m)) = 2%nat /\
  readDecimal (padStart2 (show m)) = Some m.
Proof.
  intros H.
  pose proof (forallb_wholeNumbers
                (fun z => Nat.eqb (String.length (padStart2 (show z))) 2
                          && match readDecimal (padStart2 (show z)) with
                             | Some v => v =? z
                             | None => false
                             end)
                0 100 ltac:(vm_compute; reflexivity) m ltac:(lia)) as P.
  cbv beta in P. apply andb_true_iff in P. destruct P as (L & R).
  apply Nat.eqb_eq in L. split; [assumption | ].
  destruct (readDecimal (padStart2 (show m))) as [v | ]; [ | discriminate].
  apply Z.eqb_eq in R. now subst v.
Qed.

Lemma length_append (s t : string) :
  String.length (s ++ t) = (String.length s + String.length t)%nat.
Proof. induction s as [ | a s IH]; simpl; [reflexivity | now rewrite IH]. Qed.

Lemma append_same_length (s s' t t' : string) :
  String.length s = String.length s' ->
  (s ++ t = s' ++ t')%string -> s = s' /\ t = t'.
Proof.
  revert s'. induction s as [ | a s IH]; intros [ | a' s'] L E;
    simpl in *; try discriminate.
  - auto.
  - injection L as L. injection E as -> E.
    destruct (IH s' L E) as (-> & ->). auto.
Qed.

Lemma valid_date_bounds (e : EtDate) :
  isValidEthiopianDate e = true ->
  1000 <= Year e <= 3000 /\ 1 <= Month e <= 13 /\ 1 <= Day e <= 30.
Proof.
  intros V. apply isValidEthiopianDate_spec in V.
  destruct V as (Hy & Hm & Hd).
  destruct (getEthiopianMonthLength_cases (Month e) (Year e))
    as [(_ & _ & E) | [(_ & _ & E) | (_ & E)]]; rewrite E in Hd; lia.
Qed.

(** X20.  toString of a converter that holds a valid date is a string
    of exactly 10 characters, the year on 4, the month and the day on 2
    each, and two converters that hold different valid dates have
    different strings. *)
Theorem EthiopianDateConverter_toString_fixed_width
    (this other : EthiopianDateConverter) :
  isValidEthiopianDate (ethiopianDate this) = true ->
  isValidEthiopianDate (ethiopianDate other) = true ->
  String.length (EthiopianDateConverter_toString this) = 10%nat /\
  (EthiopianDateConverter_toString this
   = EthiopianDateConverter_toString other ->
   this = other).
Proof.
  destruct this as [[D M Y]], other as [[D' M' Y']].
  cbn [ethiopianDate]. intros V V'.
  apply valid_date_bounds in V, V'. cbn [Year Month Day] in V, V'.
  destruct V as (Hy & Hm & Hd), V' as (Hy' & Hm' & Hd').
  unfold EthiopianDateConverter_toString. cbn [ethiopianDate Year Month Day].
  destruct (show_year Y Hy) as (Ly & Ry), (show_year Y' Hy') as (Ly' & Ry').
  destruct (show_padded M ltac:(lia)) as (Lm & Rm).
  destruct (show_padded M' ltac:(lia)) as (Lm' & Rm').
  destruct (show_padded D ltac:(lia)) as (Ld & Rd).
  destruct (show_padded D' ltac:(lia)) as (Ld' & Rd').
  split.
  - rewrite !length_append, Ly, Lm, Ld. reflexivity.
  - intros E.
    apply append_same_length in E; [ | congruence]. destruct E as (Ey & E).
    injection E as E.
    apply append_same_length in E; [ | congruence]. destruct E as (Em & E).
    injection E as Ed.
    rewrite Ey in Ry. rewrite Em in Rm. rewrite Ed in Rd.
    do 2 f_equal; congruence.
Qed.

Lemma EthiopianDateConverter_toString_fixed_width_witness :
  let c := dateConverter_fromParts 2018 7 1 in
  isValidEthiopianDate (ethiopianDate c) = true /\
  String.length (EthiopianDateConverter_toString c) = 10%nat.
Proof.
  cbv zeta. split; [reflexivity | ].
  exact (proj1 (EthiopianDateConverter_toString_fixed_width
                  (dateConverter_fromParts 2018 7 1)
                  (dateConverter_fromParts 2018 7 1) eq_refl eq_refl)).
Defined.

Lemma EthiopianDateConverter_addYears_eq
    (this : EthiopianDateConverter) (years : Z) :
  EthiopianDateConverter_addYears this years
  = match addYearsToEthiopianDate (ethiopianDate this) years with
    | Throws message => Throws message
    | Returns r => Returns (mkEthiopianDateConverter r)
    end.
Proof.
  unfold EthiopianDateConverter_addYears, new_EthiopianDateConverter_ofParts.
  destruct (addYearsToEthiopianDate (ethiopianDate this) years) as [[D M Y] | ];
    reflexivity.
Qed.

Lemma addYearsToEthiopianDate_fields (e : EtDate) (n : Z) (r : EthiopianDate) :
  addYearsToEthiopianDate e n = Returns r ->
  isValidEthiopianDate e = true /\
  Year r = Year e + n /\ Month r = Month e /\
  (Day r = Day e \/ (Month e = 13 /\ Day e = 6 /\ Day r = 5)).
Proof.
  intros E. destruct (isValidEthiopianDate e) eqn:V.
  - rewrite (addYearsToEthiopianDate_returns e n V) in E.
    injection E as <-. split; [reflexivity | ].
    destruct (Z.eqb_spec (Month e) 13), (Z.eqb_spec (Day e) 6),
      (isEthiopianLeapYear (Year e + n)); cbn [andb negb Year Month Day];
      auto 6.
  - unfold addYearsToEthiopianDate in E. rewrite V in E. discriminate.
Qed.

Lemma addYearsToEthiopianDate_throws_iff (e : EtDate) (n : Z) :
  throws (addYearsToEthiopianDate e n) <-> isValidEthiopianDate e = false.
Proof.
  destruct (isValidEthiopianDate e) eqn:V.
  - rewrite (addYearsToEthiopianDate_returns e n V). cbn [throws].
    split; [intros [] | discriminate].
  - unfold addYearsToEthiopianDate. rewrite V. cbn [negb throws]. tauto.
Qed.

Lemma isValidEthiopianDate_after_addYears (e : EtDate) (n : Z) (r : EthiopianDate) :
  addYearsToEthiopianDate e n = Returns r ->
  (isValidEthiopianDate r = true <-> 1000 <= Year e + n <= 3000).
Proof.
  intros E. destruct (addYearsToEthiopianDate_fields e n r E) as (V & Ry & _).
  split.
  - intros Vr. apply isValidEthiopianDate_spec in Vr. lia.
  - intros H.
    destruct (addYearsToEthiopianDate_result_valid e n V H)
      as (r' & E' & Vr & _). congruence.
Qed.

(** X21.  Two addYears calls chained on a converter made from parts
    return exactly when the date is valid and the year reached by the
    first call lies in 1000..3000: the first call does not check the
    year it produces, and the second throws on it.  When they return,
    the year is the sum, the month is kept, and the day is kept or, from
    day 6 of month 13, clamped to 5. *)
Theorem EthiopianDateConverter_addYears_chain (year month day a b : Z) :
  let chain :=
    andThen (EthiopianDateConverter_addYears
               (dateConverter_fromParts year month day) a)
      (fun c => EthiopianDateConverter_addYears c b) in
  (throws chain <->
   ~ (isValidEthiopianDate (new_EthiopianDate day month year) = true /\
      1000 <= year + a <= 3000)) /\
  (forall c : EthiopianDateConverter,
     chain = Returns c ->
     Year (ethiopianDate c) = year + a + b /\
     Month (ethiopianDate c) = month /\
     (Day (ethiopianDate c) = day \/
      (month = 13 /\ day = 6 /\ Day (ethiopianDate c) = 5))).
Proof.
  cbv zeta. rewrite EthiopianDateConverter_addYears_eq.
  unfold dateConverter_fromParts, new_EthiopianDateConverter_ofParts.
  cbn [ethiopianDate]. set (e := new_EthiopianDate day month year).
  destruct (addYearsToEthiopianDate e a) as [r | message] eqn:E;
    cbn [andThen].
  - destruct (addYearsToEthiopianDate_fields e a r E) as (V & Ry & Rm & Rd).
    pose proof (isValidEthiopianDate_after_addYears e a r E) as Vr.
    unfold e in Ry, Rm, Rd, Vr. cbn [Year Month Day] in Ry, Rm, Rd, Vr.
    rewrite EthiopianDateConverter_addYears_eq. cbn [ethiopianDate].
    destruct (addYearsToEthiopianDate r b) as [r2 | message] eqn:E2.
    + destruct (addYearsToEthiopianDate_fields r b r2 E2)
        as (V2 & Ry2 & Rm2 & Rd2).
      split.
      * cbn [throws]. split; [intros [] | ].
        intros N. apply N. split; [exact V | now apply Vr].
      * intros c [= <-]. cbn [ethiopianDate].
        repeat split; lia.
    + split; [ | discriminate].
      cbn [throws]. split; [ | auto].
      intros _ (_ & H). apply Vr in H.
      pose proof (proj2 (addYearsToEthiopianDate_throws_iff r b)) as T.
      rewrite E2 in T. cbn [throws] in T.
      assert (throws (addYearsToEthiopianDate r b)) as T'
        by (rewrite E2; exact I).
      apply addYearsToEthiopianDate_throws_iff in T'. congruence.
  - split; [ | discriminate].
    cbn [throws]. split; [ | auto].
    intros _ (V & _).
    assert (throws (addYearsToEthiopianDate e a)) as T
      by (rewrite E; exact I).
    apply addYearsToEthiopianDate_throws_iff in T. congruence.
Qed.

Lemma EthiopianDateConverter_addYears_chain_witness :
  throws (andThen (EthiopianDateConverter_addYears
                     (dateConverter_fromParts 3000 1 1) 1)
            (fun c => EthiopianDateConverter_addYears c (-1))) <->
  ~ (isValidEthiopianDate (new_EthiopianDate 1 1 3000) = true /\
     1000 <= 3000 + 1 <= 3000).
Proof.
  exact (proj1 (EthiopianDateConverter_addYears_chain 3000 1 1 1 (-1))).
Defined.

(** X22.  dateConverter.toGregorian on three numbers checks them: on a
    year, month and day that isValidEthiopianDate rejects it throws,
    with a message that holds the three numbers, and otherwise it
    returns a day of the Gregorian calendar that toEthiopian converts
    back to that day, month and year.  On a converter it does not
    check: it returns also for a date that is not valid. *)
Theorem dateConverter_toGregorian_checks_parts (year month day : Z) :
  (isValidEthiopianDate (new_EthiopianDate day month year) = false ->
   dateConverter_toGregorian_ofParts year month day
   = Throws ("Invalid Ethiopian date: " ++ show day ++ "-" ++ show month
             ++ "-" ++ show year)%string) /\
  (isValidEthiopianDate (new_EthiopianDate day month year) = true ->
   exists g : Date,
     dateConverter_toGregorian_ofParts year month day = Returns (Some g) /\
     isGregorianCalendarDay g /\
     toEthiopian g = new_EthiopianDate day month year) /\
  (exists g : Date,
     dateConverter_toGregorian_ofConverter
       (dateConverter_fromParts year month day) = Some g).
Proof.
  unfold dateConverter_toGregorian_ofParts.
  split; [ | split].
  - intros V. now rewrite V.
  - intros V. rewrite V. cbn [negb].
    destruct (toEthiopian_toGregorian _ V) as (g & E & G & R).
    exists g. rewrite E. auto.
  - unfold dateConverter_toGregorian_ofConverter, toGregorian.
    apply gregorianDateFromDayNo_returns.
Qed.

Lemma dateConverter_toGregorian_checks_parts_witness :
  (isValidEthiopianDate (new_EthiopianDate 31 1 2016) = false /\
   isValidEthiopianDate (new_EthiopianDate 1 1 2016) = true) /\
  dateConverter_toGregorian_ofParts 2016 1 31
  = Throws "Invalid Ethiopian date: 31-1-2016" /\
  exists g : Date,
    dateConverter_toGregorian_ofParts 2016 1 1 = Returns (Some g) /\
    isGregorianCalendarDay g /\
    toEthiopian g = new_EthiopianDate 1 1 2016.
Proof.
  split; [split; reflexivity | ]. split.
  - exact (proj1 (dateConverter_toGregorian_checks_parts 2016 1 31) eq_refl).
  - exact (proj1 (proj2 (dateConverter_toGregorian_checks_parts 2016 1 1))
             eq_refl).
Defined.

(** X23.  A converter built on a Date gives the Date back through
    dateConverter.toGregorian, for every day of the Gregorian calendar
    from year 100 on. *)
Theorem dateConverter_round_trip (g : Date) :
  isGregorianCalendarDay g -> 100 <= getFullYear g ->
  dateConverter_toGregorian_ofConverter (new_EthiopianDateConverter_ofDate g)
  = Some g.
Proof.
  intros G Hy.
  unfold dateConverter_toGregorian_ofConverter,
    new_EthiopianDateConverter_ofDate.
  cbn [ethiopianDate].
  assert (N : 36159 < getGregorianDayNumber g).
  { destruct g as [y mi d]. destruct G as (Hm & Hd).
    cbn [getFullYear getMonth getDate] in *.
    replace mi with (mi + 1 - 1) at 1 by lia.
    rewrite getGregorianDayNumber_mkDate.
    pose proof (dayNumberOf_bounds y (mi + 1) d ltac:(lia) ltac:(lia) Hd).
    pose proof (daysBeforeYear_monotone 100 y ltac:(lia)).
    rewrite daysBeforeYear_100 in *. lia. }
  unfold toGregorian, toEthiopian, ETHIOPIAN_CALENDAR_OFFSET.
  rewrite getDayNumber_createEthiopianDate by lia.
  replace (getGregorianDayNumber g - 2431 + 2431)
    with (getGregorianDayNumber g) by lia.
  now apply gregorianDateFromDayNo_getGregorianDayNumber.
Qed.

Lemma dateConverter_round_trip_witness :
  let g := mkDate 150 1 28 in
  (isGregorianCalendarDay g /\ 100 <= getFullYear g) /\
  dateConverter_toGregorian_ofConverter (new_EthiopianDateConverter_ofDate g)
  = Some g.
Proof.
  cbv zeta.
  assert (G : isGregorianCalendarDay (mkDate 150 1 28))
    by (unfold isGregorianCalendarDay; vm_compute; intuition discriminate).
  assert (Y : 100 <= getFullYear (mkDate 150 1 28)) by (cbn; lia).
  split; [split; assumption | ].
  exact (dateConverter_round_trip (mkDate 150 1 28) G Y).
Defined.

(** ** formatEthiopianDate *)

(** X24.  formatEthiopianDate returns the empty string for a null date.
    For a Date whose day number is at least 2431 the month it shows is
    always a name of the table of the locale, never "undefined": the
    long format is the day, that name and the year, the month format
    the name and the year, the day format the day and the name, and the
    short format the three numbers separated by slashes. *)
Theorem formatEthiopianDate_shows_a_month_name (g : Date) (locale : DateType) :
  (forall format : DisplayFormat,
     formatEthiopianDate None format locale = ""%string) /\
  (2431 <= getGregorianDayNumber g ->
   let e := toEthiopian g in
   exists name : string,
     getEthiopianMonthName (Month e) locale = Some name /\
     In name (match locale with
              | AMH => ETHIOPIAN_MONTHS
              | EN => ENGLISH_MONTHS
              end) /\
     formatEthiopianDate (Some g) FormatLong locale
     = (show (Day e) ++ " " ++ name ++ " " ++ show (Year e))%string /\
     formatEthiopianDate (Some g) FormatMonth locale
     = (name ++ " " ++ show (Year e))%string /\
     formatEthiopianDate (Some g) FormatDay locale
     = (show (Day e) ++ " " ++ name)%string /\
     formatEthiopianDate (Some g) FormatShort locale
     = (show (Day e) ++ "/" ++ show (Month e) ++ "/" ++ show (Year e))%string).
Proof.
  split; [reflexivity | ].
  intros H e.
  assert (W : wellFormedEt e).
  { subst e. unfold toEthiopian, ETHIOPIAN_CALENDAR_OFFSET.
    apply createEthiopianDate_wellFormed. lia. }
  destruct W as (_ & Hm & _).
  destruct (getEthiopianMonthName_in_range (Month e) locale Hm)
    as (name & E & N & T).
  exists name. split; [assumption | split].
  - destruct locale.
    + unfold englishMonthOf in T.
      destruct (at_index gregorianMonthMap (Month e - 1)) as [i | ];
        [ | discriminate].
      unfold at_index in T. destruct (i <? 0); [discriminate | ].
      now apply nth_error_In in T.
    + unfold at_index in T. destruct (Month e - 1 <? 0); [discriminate | ].
      now apply nth_error_In in T.
  - unfold formatEthiopianDate, EthiopianDate_toString,
      EthiopianDate_toShortString. fold e.
    destruct locale.
    + rewrite E. cbn [interpolate]. repeat split.
    + rewrite T. cbn [interpolate]. repeat split.
Qed.

Lemma formatEthiopianDate_shows_a_month_name_witness :
  let g := mkDate 2025 6 17 in
  2431 <= getGregorianDayNumber g /\
  exists name : string,
    getEthiopianMonthName (Month (toEthiopian g)) EN = Some name /\
    In name ENGLISH_MONTHS /\
    formatEthiopianDate (Some g) FormatLong EN
    = (show (Day (toEthiopian g)) ++ " " ++ name ++ " "
       ++ show (Year (toEthiopian g)))%string /\
    formatEthiopianDate (Some g) FormatMonth EN
    = (name ++ " " ++ show (Year (toEthiopian g)))%string /\
    formatEthiopianDate (Some g) FormatDay EN
    = (show (Day (toEthiopian g)) ++ " " ++ name)%string /\
    formatEthiopianDate (Some g) FormatShort EN
    = (show (Day (toEthiopian g)) ++ "/" ++ show (Month (toEthiopian g))
       ++ "/" ++ show (Year (toEthiopian g)))%string.
Proof.
  cbv zeta.
  assert (H : 2431 <= getGregorianDayNumber (mkDate 2025 6 17))
    by (vm_compute; discriminate).
  split; [exact H | ].
  exact (proj2 (formatEthiopianDate_shows_a_month_name (mkDate 2025 6 17) EN)
           H).
Defined.

(** ** Consecutive days *)

(** X25.  createEthiopianDate maps consecutive day numbers to
    consecutive days of the calendar: day number 0 is day 1 of month 1
    of year 0, and for n >= 0 the date of n + 1 is the day after the
    date of n (the next day of the month, else day 1 of the next month,
    else day 1 of month 1 of the next year). *)
Theorem createEthiopianDate_consecutive (n : Z) :
  createEthiopianDate 0 = new_EthiopianDate 1 1 0 /\
  (0 <= n ->
   createEthiopianDate (n + 1) = nextDay (createEthiopianDate n)).
Proof.
  split; [reflexivity | ].
  intros H.
  rewrite <- (getDayNumber_createEthiopianDate n H) at 1.
  apply createEthiopianDate_next. now apply createEthiopianDate_wellFormed.
Qed.

Lemma createEthiopianDate_consecutive_witness :
  0 <= 737018 /\
  createEthiopianDate (737018 + 1) = nextDay (createEthiopianDate 737018).
Proof.
  split; [lia | ].
  exact (proj2 (createEthiopianDate_consecutive 737018) ltac:(lia)).
Defined.

Lemma EthiopianDateConverter_addDays_eq
    (this : EthiopianDateConverter) (days : Z) :
  EthiopianDateConverter_addDays this days
  = match addDaysToEthiopianDate (ethiopianDate this) days with
    | Throws message => Throws message
    | Returns r => Returns (mkEthiopianDateConverter r)
    end.
Proof.
  unfold EthiopianDateConverter_addDays, new_EthiopianDateConverter_ofParts.
  destruct (addDaysToEthiopianDate (ethiopianDate this) days) as [[D M Y] | ];
    reflexivity.
Qed.

(** X26.  Two addDays calls chained on a converter that holds a valid
    date, the date between them being valid too, return the date
    a + b + 2 days after the first: each call adds one day more than it
    is asked to. *)
Theorem EthiopianDateConverter_addDays_chain
    (this : EthiopianDateConverter) (a b : Z) :
  isValidEthiopianDate (ethiopianDate this) = true ->
  isValidEthiopianDate
    (createEthiopianDate (getDayNumber (ethiopianDate this) + 1 + a)) = true ->
  0 <= getDayNumber (ethiopianDate this) + a + b + 2 ->
  exists c : EthiopianDateConverter,
    andThen (EthiopianDateConverter_addDays this a)
      (fun c1 => EthiopianDateConverter_addDays c1 b) = Returns c /\
    wellFormedEt (ethiopianDate c) /\
    getDayNumber (ethiopianDate c)
    = getDayNumber (ethiopianDate this) + a + b + 2.
Proof.
  intros V V1 H. set (e := ethiopianDate this) in *.
  set (r := createEthiopianDate (getDayNumber e + 1 + a)) in *.
  pose proof (valid_date_bounds r V1) as (Hy & _).
  assert (Ha : 0 <= getDayNumber e + 1 + a).
  { destruct (Z.lt_ge_cases (getDayNumber e + 1 + a) 0) as [L | L]; [ | lia].
    pose proof (createEthiopianDate_negative_year _ L) as Hneg.
    fold r in Hneg. lia. }
  assert (Er : getDayNumber r = getDayNumber e + 1 + a)
    by (apply getDayNumber_createEthiopianDate; exact Ha).
  rewrite EthiopianDateConverter_addDays_eq. fold e.
  unfold addDaysToEthiopianDate at 1. rewrite V. cbn [negb andThen].
  rewrite EthiopianDateConverter_addDays_eq. cbn [ethiopianDate]. fold r.
  unfold addDaysToEthiopianDate. rewrite V1. cbn [negb].
  eexists. split; [reflexivity | ]. cbn [ethiopianDate]. rewrite Er.
  split.
  - apply createEthiopianDate_wellFormed. lia.
  - rewrite getDayNumber_createEthiopianDate by lia. lia.
Qed.

Lemma EthiopianDateConverter_addDays_chain_witness :
  let c := dateConverter_fromParts 2018 7 11 in
  (isValidEthiopianDate (ethiopianDate c) = true /\
   isValidEthiopianDate
     (createEthiopianDate (getDayNumber (ethiopianDate c) + 1 + 30)) = true /\
   0 <= getDayNumber (ethiopianDate c) + 30 + (-30) + 2) /\
  exists c' : EthiopianDateConverter,
    andThen (EthiopianDateConverter_addDays c 30)
      (fun c1 => EthiopianDateConverter_addDays c1 (-30)) = Returns c' /\
    wellFormedEt (ethiopianDate c') /\
    getDayNumber (ethiopianDate c')
    = getDayNumber (ethiopianDate c) + 30 + (-30) + 2.
Proof.
  cbv zeta.
  assert (H : 0 <= getDayNumber
                     (ethiopianDate (dateConverter_fromParts 2018 7 11))
                   + 30 + (-30) + 2) by (vm_compute; discriminate).
  split; [split; [reflexivity | split; [reflexivity | exact H]] | ].
  exact (EthiopianDateConverter_addDays_chain
           (dateConverter_fromParts 2018 7 11) 30 (-30) eq_refl eq_refl H).
Defined.
